(** * Gold-price collection pipeline: a shallow embedding and its properties

    The development follows the Python sources file by file:

    - [Py]            the fragment of Python's data model the program uses
                      (None, int, float, str, dict; truthiness, comparison
                      with 0, float arithmetic, [round], number formatting,
                      exceptions caught by [try]/[except Exception]);
    - [NavCalculator] nav_calculator.py, class NAVCalculator;
    - [Sqlite]        the part of the sqlite3 module that db_manager.py calls;
    - [DbManager]     db_manager.py, class DatabaseManager;
    - [Collector]     data_collector.py, class DataCollector;
    - [Clients]       korean_investment_gold.py, class KoreanInvestmentGoldAPI,
                      and yahoo_finance_simple.py, class YahooFinanceAPI;
    - [Props], [Facts] the vocabulary of the properties and the concrete
                      stores, answers, snapshots and cycles they are tried on.

    Python floats are IEEE 754 binary64 numbers, modelled by [spec_float] at
    precision 53 and exponent bound 1024.  Dictionaries are finite maps with
    string keys.  Reading the wall clock, calling a remote endpoint and
    touching the database file are effects: the clock and the database are
    threaded through as explicit state and the endpoints' answers are taken
    from an environment.  Console output ([print]) is not modelled, except
    where building the text can raise. *)

From Stdlib Require Import ZArith String Ascii List Bool Lia SpecFloat DecimalString Sorted.
From stdpp Require Import gmap strings.
Import ListNotations.

#[local] Set Warnings "-register-all".
#[local] Open Scope Z_scope.

(** ** Python values *)

Module Py.

Inductive value :=
| VNone
| VInt (z : Z)
| VFloat (f : spec_float)
| VStr (s : string)
| VDict (d : gmap string value).

(** Exceptions derived from [Exception]; each carries the text [str(e)]. *)
Inductive exn :=
| TypeError (msg : string)
| ValueError (msg : string)
| OverflowError (msg : string)
| AttributeError (msg : string)
| OperationalError (msg : string)
| ProgrammingError (msg : string)
| IntegrityError (msg : string)
| RequestException (msg : string).

Definition exn_str (e : exn) : string :=
  match e with
  | TypeError m | ValueError m | OverflowError m | AttributeError m
  | OperationalError m | ProgrammingError m | IntegrityError m
  | RequestException m => m
  end.

(** The outcome of evaluating an expression or a call. *)
Inductive result (A : Type) :=
| Ok (a : A)
| Raise (e : exn).

Arguments Ok {A} a.
Arguments Raise {A} e.

Definition bind {A B : Type} (c : result A) (k : A -> result B) : result B :=
  match c with
  | Ok a => k a
  | Raise e => Raise e
  end.

Notation "x <- c ;; k" := (bind c (fun x => k))
  (at level 100, c at next level, right associativity).

Definition type_name (v : value) : string :=
  match v with
  | VNone => "NoneType"
  | VInt _ => "int"
  | VFloat _ => "float"
  | VStr _ => "str"
  | VDict _ => "dict"
  end.

Definition isinstance_dict (v : value) : bool :=
  match v with
  | VDict _ => true
  | _ => false
  end.

(** [d.get(key, default)] *)
Definition dict_get (d : gmap string value) (key : string) (dflt : value) : value :=
  default dflt (d !! key).

(** *** Floats *)

Definition fzero : spec_float := S754_zero false.

Definition fmul : spec_float -> spec_float -> spec_float := SFmul 53 1024.
Definition fdiv : spec_float -> spec_float -> spec_float := SFdiv 53 1024.

(** The float nearest to an integer (ties to even); [float(z)] for an int
    small enough not to overflow. *)
Definition float_of_Z (z : Z) : spec_float := binary_normalize 53 1024 z 0 false.

(** [float(z)] as used by [int * float] and by the 'f' format of an int. *)
Definition float_of_int (z : Z) : result spec_float :=
  match float_of_Z z with
  | S754_infinity _ => Raise (OverflowError "int too large to convert to float")
  | f => Ok f
  end.

(** Truth value: [bool(v)]. *)
Definition truthy (v : value) : bool :=
  match v with
  | VNone => false
  | VInt z => negb (z =? 0)
  | VFloat f => negb (SFeqb f fzero)
  | VStr s => negb (String.eqb s "")
  | VDict d => negb (Nat.eqb (size d) 0)
  end.

Definition unsupported_compare (op : string) (v : value) : exn :=
  TypeError ("'" +:+ op +:+ "' not supported between instances of '"
             +:+ type_name v +:+ "' and 'int'").

(** [v > 0] *)
Definition gt0 (v : value) : result bool :=
  match v with
  | VInt z => Ok (0 <? z)
  | VFloat f => Ok (SFltb fzero f)
  | _ => Raise (unsupported_compare ">" v)
  end.

(** [v <= 0] *)
Definition le0 (v : value) : result bool :=
  match v with
  | VInt z => Ok (z <=? 0)
  | VFloat f => Ok (SFleb f fzero)
  | _ => Raise (unsupported_compare "<=" v)
  end.

(** [v * k] for a float [k]. *)
Definition mul_float (v : value) (k : spec_float) : result spec_float :=
  match v with
  | VInt z => f <- float_of_int z ;; Ok (fmul f k)
  | VFloat f => Ok (fmul f k)
  | VStr _ => Raise (TypeError "can't multiply sequence by non-int of type 'float'")
  | _ => Raise (TypeError ("unsupported operand type(s) for *: '"
                           +:+ type_name v +:+ "' and 'float'"))
  end.

(** Nearest integer to [num / den], ties to even ([0 <= num], [0 < den]). *)
Definition round_half_even (num den : Z) : Z :=
  let q := num / den in
  match 2 * (num mod den) ?= den with
  | Lt => q
  | Eq => if Z.even q then q else q + 1
  | Gt => q + 1
  end.

(** [round(x, 2)] for a float: the exact value of [x] is rounded to two
    decimals, ties to even, and the float nearest to that decimal is
    returned; infinities, nan and integral values are returned as they are. *)
Definition round2 (x : spec_float) : spec_float :=
  match x with
  | S754_finite s m e =>
      if 0 <=? e then x
      else match round_half_even (Zpos m * 100) (2 ^ (- e)) with
           | Zpos n => fdiv (S754_finite s n 0) (S754_finite false 100 0)
           | _ => S754_zero s
           end
  | _ => x
  end.

(** *** Number formatting *)

Fixpoint group_rev (digits : list ascii) (k : nat) : list ascii :=
  match digits with
  | [] => []
  | c :: rest =>
      match k with
      | 3%nat => ","%char :: c :: group_rev rest 1
      | _ => c :: group_rev rest (S k)
      end
  end.

(** Decimal digits of a natural number with a comma every three digits. *)
Definition thousands (n : N) : string :=
  string_of_list_ascii
    (rev (group_rev (rev (list_ascii_of_string (NilZero.string_of_uint (N.to_uint n)))) 0)).

(** [f"{z:,}"] for an int. *)
Definition format_int_comma (z : Z) : string :=
  (if z <? 0 then "-" else "") +:+ thousands (Z.abs_N z).

(** [f"{x:,.0f}"] for a float. *)
Definition format_float_comma_0f (x : spec_float) : string :=
  match x with
  | S754_nan => "nan"
  | S754_infinity s => if s then "-inf" else "inf"
  | S754_zero s => if s then "-0" else "0"
  | S754_finite s m e =>
      let n := if 0 <=? e then Zpos m * 2 ^ e
               else round_half_even (Zpos m) (2 ^ (- e)) in
      (if s then "-" else "") +:+ thousands (Z.abs_N n)
  end.

(** [f"{v:,.0f}"] for any value. *)
Definition format_comma_0f (v : value) : result string :=
  match v with
  | VInt z => f <- float_of_int z ;; Ok (format_float_comma_0f f)
  | VFloat f => Ok (format_float_comma_0f f)
  | VStr _ => Raise (ValueError "Unknown format code 'f' for object of type 'str'")
  | _ => Raise (TypeError ("unsupported format string passed to "
                           +:+ type_name v +:+ ".__format__"))
  end.

End Py.

(** ** nav_calculator.py *)

Module NavCalculator.
Import Py.

Record NAVCalculator := {
  gold_holding_per_cu : Z;
  total_shares : Z;
  nav_multiplier : spec_float
}.

(** [NAVCalculator.__init__]: the quotient of two ints below 2^53 is the
    IEEE quotient of the two floats. *)
Definition init : NAVCalculator := {|
  gold_holding_per_cu := 14000;
  total_shares := 100000;
  nav_multiplier := fdiv (float_of_Z 14000) (float_of_Z 100000)
|}.

Definition status_no_price : string := "금현물 가격 없음".
Definition status_done : string := "계산 완료".
Definition status_error (e : exn) : string := "계산 오류: " +:+ exn_str e.

(** [NAVCalculator.calculate_nav].  [now] is the text of
    [get_korean_time().isoformat()] at the one point of the call where the
    clock is read. *)
Definition calculate_nav (self : NAVCalculator) (now : string)
    (gold_spot_price : value) : gmap string value :=
  let body : result (gmap string value) :=
    no_price <- (if negb (truthy gold_spot_price) then Ok true
                 else le0 gold_spot_price) ;;
    if (no_price : bool) then
      Ok {[ "nav_value" := VInt 0;
            "gold_spot_price" := VInt 0;
            "calculation_status" := VStr status_no_price;
            "timestamp" := VStr now ]}
    else
      nav_value <- mul_float gold_spot_price (nav_multiplier self) ;;
      price_text <- format_comma_0f gold_spot_price ;;
      Ok {[ "nav_value" := VFloat (round2 nav_value);
            "gold_spot_price" := gold_spot_price;
            "calculation_formula" :=
              VStr ("(" +:+ price_text +:+ " × "
                    +:+ format_int_comma (gold_holding_per_cu self) +:+ ") ÷ "
                    +:+ format_int_comma (total_shares self));
            "calculation_status" := VStr status_done;
            "timestamp" := VStr now ]}
  in
  match body with
  | Ok r => r
  | Raise e =>
      {[ "nav_value" := VInt 0;
         "gold_spot_price" := gold_spot_price;
         "calculation_status" := VStr (status_error e);
         "timestamp" := VStr now ]}
  end.

(** [market_data.get(key, {}).get('current_price', 0) if market_data.get(key) else 0] *)
Definition source_price (market_data : gmap string value) (key : string) : result value :=
  if truthy (dict_get market_data key VNone) then
    match dict_get market_data key (VDict ∅) with
    | VDict d => Ok (dict_get d "current_price" (VInt 0))
    | v => Raise (AttributeError ("'" +:+ type_name v +:+ "' object has no attribute 'get'"))
    end
  else Ok (VInt 0).

(** [NAVCalculator.calculate_nav_with_all_data] *)
Definition calculate_nav_with_all_data (self : NAVCalculator) (now : string)
    (market_data : gmap string value) : gmap string value :=
  let body : result (gmap string value) :=
    match dict_get market_data "gold_spot" VNone with
    | VDict gold_spot_data =>
        if negb (truthy (VDict gold_spot_data)) then Ok (calculate_nav self now (VInt 0))
        else
          let gold_spot_price := dict_get gold_spot_data "current_price" (VInt 0) in
          let nav_result := calculate_nav self now gold_spot_price in
          domestic_etf <- source_price market_data "domestic" ;;
          us_futures <- source_price market_data "us_futures" ;;
          usd_krw <- source_price market_data "usd_krw" ;;
          Ok (<[ "data_sources" :=
                   VDict {[ "domestic_etf" := domestic_etf;
                            "us_futures" := us_futures;
                            "gold_spot" := gold_spot_price;
                            "usd_krw" := usd_krw ]} ]> nav_result)
    | _ => Ok (calculate_nav self now (VInt 0))
    end
  in
  match body with
  | Ok r => r
  | Raise _ => calculate_nav self now (VInt 0)
  end.

(** [NAVCalculator.format_nav_for_display]: [nav_result] is always a dict
    here, so the handler of the source is never entered. *)
Definition format_nav_for_display (nav_result : gmap string value) : gmap string value :=
  {[ "nav_value" := dict_get nav_result "nav_value" (VInt 0) ]}.

End NavCalculator.

(** ** The sqlite3 calls of db_manager.py *)

Module Sqlite.
Import Py.

(** A stored value: SQLite's storage classes NULL, INTEGER, REAL and TEXT. *)
Inductive cell :=
| Null
| Integer (z : Z)
| Real (f : spec_float)
| Text (s : string).

(** A row of [gold_data], keyed by column name; [dict(row)] for a
    [sqlite3.Row]. *)
Abbreviation row := (gmap string cell).

(** The state of the database file.  [gold_data] lists the rows of the table
    in rowid order, which is the order in which they were appended, and is
    [None] when the table does not exist. *)
Record database := {
  accessible : bool;          (* [sqlite3.connect] and reads succeed *)
  writable : bool;            (* the file accepts an insert and its commit *)
  gold_data : option (list row);
  current_timestamp : string  (* what [CURRENT_TIMESTAMP] evaluates to *)
}.

(** The columns of [CREATE TABLE gold_data] in [init_database]. *)
Definition gold_data_columns : list string :=
  [ "id"; "timestamp"; "usd_krw_rate";
    "domestic_current_price"; "domestic_bid_price_1"; "domestic_bid_volume_1";
    "domestic_ask_price_1"; "domestic_ask_volume_1";
    "us_futures_current_price"; "us_futures_bid_price_1"; "us_futures_bid_volume_1";
    "us_futures_ask_price_1"; "us_futures_ask_volume_1";
    "domestic_gold_spot_current_price"; "domestic_gold_spot_bid_price_1";
    "domestic_gold_spot_bid_volume_1"; "domestic_gold_spot_ask_price_1";
    "domestic_gold_spot_ask_volume_1";
    "nav_value"; "created_at" ].

(** [sqlite3.connect(path)] *)
Definition connect (db : database) : result unit :=
  if accessible db then Ok tt
  else Raise (OperationalError "unable to open database file").

(** [INSERT INTO gold_data (c1, ..., cm) VALUES (?, ..., ?)] with [n]
    question marks. *)
Record insert_statement := {
  into_columns : list string;
  values_count : nat
}.

Definition show_nat (n : nat) : string := NilZero.string_of_uint (Nat.to_uint n).

(** Compiling the statement: the table and every named column must exist and
    the VALUES list must be as long as the column list.  A column may be
    named more than once. *)
Definition prepare_insert (db : database) (stmt : insert_statement) : result unit :=
  match gold_data db with
  | None => Raise (OperationalError "no such table: gold_data")
  | Some _ =>
      match find (fun c => negb (existsb (String.eqb c) gold_data_columns))
                 (into_columns stmt) with
      | Some c => Raise (OperationalError ("table gold_data has no column named " +:+ c))
      | None =>
          if Nat.eqb (values_count stmt) (length (into_columns stmt)) then Ok tt
          else Raise (OperationalError
                        (show_nat (values_count stmt) +:+ " values for "
                         +:+ show_nat (length (into_columns stmt)) +:+ " columns"))
      end
  end.

(** Converting one Python argument to a stored value. *)
Definition bind_param (index : nat) (v : value) : result cell :=
  match v with
  | VNone => Ok Null
  | VInt z =>
      if (- 2 ^ 63 <=? z) && (z <? 2 ^ 63) then Ok (Integer z)
      else Raise (OverflowError "Python int too large to convert to SQLite INTEGER")
  | VFloat S754_nan => Ok Null
  | VFloat f => Ok (Real f)
  | VStr s => Ok (Text s)
  | VDict _ =>
      Raise (ProgrammingError ("Error binding parameter " +:+ show_nat index
                               +:+ ": type 'dict' is not supported"))
  end.

Fixpoint bind_params (index : nat) (params : list value) : result (list cell) :=
  match params with
  | [] => Ok []
  | v :: rest =>
      c <- bind_param index v ;;
      cs <- bind_params (S index) rest ;;
      Ok (c :: cs)
  end.

(** The value read back from a cell. *)
Definition cell_value (c : cell) : value :=
  match c with
  | Null => VNone
  | Integer z => VInt z
  | Real f => VFloat f
  | Text s => VStr s
  end.

Definition row_id (r : row) : Z :=
  match r !! "id" with
  | Some (Integer z) => z
  | _ => 0
  end.

(** The id given to the next row of an AUTOINCREMENT table from which
    nothing is ever deleted. *)
Definition next_id (rows : list row) : Z :=
  1 + foldr (fun r acc => Z.max (row_id r) acc) 0 rows.

(** The row an INSERT stores: the listed columns take the bound cells (the
    first occurrence of a column that is listed twice), [id] and
    [created_at] take their defaults and every other column is NULL.
    Column affinity, which may change the storage class of a number, is left
    out. *)
Definition new_row (db : database) (rows : list row)
    (columns : list string) (cells : list cell) : row :=
  list_to_map (zip columns cells)
  ∪ {[ "id" := Integer (next_id rows); "created_at" := Text (current_timestamp db) ]}
  ∪ list_to_map ((fun c => (c, Null)) <$> gold_data_columns).

(** [cursor.execute(INSERT ..., params)] followed by [conn.commit()]. *)
Definition execute_insert (db : database) (stmt : insert_statement)
    (params : list value) : result database :=
  _ <- prepare_insert db stmt ;;
  if negb (Nat.eqb (length params) (values_count stmt)) then
    Raise (ProgrammingError
             ("Incorrect number of bindings supplied. The current statement uses "
              +:+ show_nat (values_count stmt) +:+ ", and there are "
              +:+ show_nat (length params) +:+ " supplied."))
  else
    cells <- bind_params 1 params ;;
    if negb (writable db) then
      Raise (OperationalError "attempt to write a readonly database")
    else
      let rows := default [] (gold_data db) in
      let r := new_row db rows (into_columns stmt) cells in
      match r !! "timestamp" with
      | Some Null | None =>
          Raise (IntegrityError "NOT NULL constraint failed: gold_data.timestamp")
      | Some _ =>
          Ok {| accessible := accessible db;
                writable := writable db;
                gold_data := Some (rows ++ [r]);
                current_timestamp := current_timestamp db |}
      end.

(** The COUNT query over [gold_data] and [fetchone()[0]]. *)
Definition select_count (db : database) : result Z :=
  match gold_data db with
  | None => Raise (OperationalError "no such table: gold_data")
  | Some rows => Ok (Z.of_nat (length rows))
  end.

(** Comparison of an integer with the exact value of a float. *)
Definition compare_int_real (z : Z) (f : spec_float) : comparison :=
  match f with
  | S754_zero _ => z ?= 0
  | S754_infinity s => if s then Gt else Lt
  | S754_nan => Gt
  | S754_finite s m e =>
      let v := if s then Zneg m else Zpos m in
      if 0 <=? e then z ?= v * 2 ^ e else z * 2 ^ (- e) ?= v
  end.

(** SQLite's order on stored values: NULL first, then numbers by value, then
    text byte by byte. *)
Definition sql_compare (a b : cell) : comparison :=
  match a, b with
  | Null, Null => Eq
  | Null, _ => Lt
  | _, Null => Gt
  | Integer x, Integer y => x ?= y
  | Integer x, Real g => compare_int_real x g
  | Real f, Integer y => CompOpp (compare_int_real y f)
  | Real f, Real g => default Eq (SFcompare f g)
  | Text s, Text t => String.compare s t
  | Text _, _ => Gt
  | _, Text _ => Lt
  end.

Definition created_at (r : row) : cell := default Null (r !! "created_at").

(** [ORDER BY created_at DESC]: rows with equal keys keep their table
    order. *)
Fixpoint insert_desc (x : row) (sorted : list row) : list row :=
  match sorted with
  | [] => [x]
  | y :: rest =>
      match sql_compare (created_at x) (created_at y) with
      | Lt => y :: insert_desc x rest
      | _ => x :: y :: rest
      end
  end.

Fixpoint order_by_created_at_desc (rows : list row) : list row :=
  match rows with
  | [] => []
  | x :: rest => insert_desc x (order_by_created_at_desc rest)
  end.

(** [LIMIT n]: a negative bound is no bound. *)
Definition sql_limit (n : Z) (rows : list row) : list row :=
  if n <? 0 then rows else take (Z.to_nat n) rows.

(** [SELECT * FROM gold_data ORDER BY created_at DESC LIMIT ?] with an int
    bound to the parameter, and [fetchall()]. *)
Definition select_latest (db : database) (limit : Z) : result (list row) :=
  match gold_data db with
  | None => Raise (OperationalError "no such table: gold_data")
  | Some rows =>
      c <- bind_param 1 (VInt limit) ;;
      match c with
      | Integer n => Ok (sql_limit n (order_by_created_at_desc rows))
      | _ => Raise (IntegrityError "datatype mismatch")
      end
  end.

End Sqlite.

(** ** db_manager.py *)

Module DbManager.
Import Py Sqlite.

(** [DatabaseManager.init_database]: [CREATE TABLE IF NOT EXISTS]; a failure
    is printed and leaves the file as it was. *)
Definition init_database (db : database) : database :=
  if accessible db && writable db then
    {| accessible := accessible db;
       writable := writable db;
       gold_data := Some (default [] (gold_data db));
       current_timestamp := current_timestamp db |}
  else db.

(** The INSERT statement of [save_market_data]: its column list and the
    number of question marks of its VALUES list. *)
Definition insert_gold_data : insert_statement := {|
  into_columns :=
    [ "timestamp"; "usd_krw_rate"; "domestic_current_price"; "domestic_bid_price_1";
      "domestic_bid_volume_1"; "domestic_ask_price_1"; "domestic_ask_volume_1";
      "us_futures_current_price"; "us_futures_bid_price_1"; "us_futures_bid_volume_1";
      "us_futures_ask_price_1"; "us_futures_ask_volume_1";
      "domestic_gold_spot_current_price"; "domestic_gold_spot_bid_price_1";
      "domestic_gold_spot_bid_volume_1"; "domestic_gold_spot_ask_price_1";
      "domestic_gold_spot_ask_volume_1";
      "nav_value";
      "usd_krw_rate"; "created_at" ];
  values_count := 19
|}.

(** [data.get(key) if data else None] *)
Definition extract (data : value) (key : string) : result value :=
  if truthy data then
    match data with
    | VDict d => Ok (dict_get d key VNone)
    | v => Raise (AttributeError ("'" +:+ type_name v +:+ "' object has no attribute 'get'"))
    end
  else Ok VNone.

(** The tuple that [save_market_data] passes to [cursor.execute].
    [korean_time] and [timestamp] are the two readings of the clock. *)
Definition insert_parameters (korean_time timestamp : string)
    (domestic_data us_futures_data gold_spot_data nav_data usd_krw_data : value)
    : result (list value) :=
  usd_krw_rate <- extract usd_krw_data "current_price" ;;
  domestic_current <- extract domestic_data "current_price" ;;
  domestic_bid <- extract domestic_data "bid_price_1" ;;
  domestic_bid_vol <- extract domestic_data "bid_volume_1" ;;
  domestic_ask <- extract domestic_data "ask_price_1" ;;
  domestic_ask_vol <- extract domestic_data "ask_volume_1" ;;
  us_current <- extract us_futures_data "current_price" ;;
  us_bid <- extract us_futures_data "bid_price" ;;
  us_bid_vol <- extract us_futures_data "bid_volume" ;;
  us_ask <- extract us_futures_data "ask_price" ;;
  us_ask_vol <- extract us_futures_data "ask_volume" ;;
  spot_current <- extract gold_spot_data "current_price" ;;
  spot_bid <- extract gold_spot_data "bid_price_1" ;;
  spot_bid_vol <- extract gold_spot_data "bid_volume_1" ;;
  spot_ask <- extract gold_spot_data "ask_price_1" ;;
  spot_ask_vol <- extract gold_spot_data "ask_volume_1" ;;
  nav_value <- extract nav_data "nav_value" ;;
  Ok [ VStr timestamp; usd_krw_rate; domestic_current; domestic_bid; domestic_bid_vol;
       domestic_ask; domestic_ask_vol; us_current; us_bid; us_bid_vol;
       us_ask; us_ask_vol; spot_current; spot_bid; spot_bid_vol;
       spot_ask; spot_ask_vol; nav_value;
       VStr korean_time ].

(** [DatabaseManager.save_market_data]: the flag returned and the database
    afterwards. *)
Definition save_market_data (db : database) (korean_time timestamp : string)
    (domestic_data us_futures_data gold_spot_data nav_data usd_krw_data : value)
    : bool * database :=
  let body : result database :=
    _ <- connect db ;;
    params <- insert_parameters korean_time timestamp
                domestic_data us_futures_data gold_spot_data nav_data usd_krw_data ;;
    execute_insert db insert_gold_data params
  in
  match body with
  | Ok db' => (true, db')
  | Raise _ => (false, db)
  end.

(** [DatabaseManager.get_data_count] *)
Definition get_data_count (db : database) : Z :=
  let body : result Z := _ <- connect db ;; select_count db in
  match body with
  | Ok count => count
  | Raise _ => 0
  end.

(** [DatabaseManager.get_latest_data] *)
Definition get_latest_data (db : database) (limit : Z) : list (gmap string value) :=
  let body : result (list row) := _ <- connect db ;; select_latest db limit in
  match body with
  | Ok rows => (fun r : row => cell_value <$> r) <$> rows
  | Raise _ => []
  end.

End DbManager.

(** ** data_collector.py *)

Module Collector.
Import Py NavCalculator Sqlite DbManager.

Inductive source := Domestic | UsFutures | GoldSpot | UsdKrw.

(** What one call of a source client does: it returns a value or raises,
    and it keeps the caller waiting for [latency] microseconds. *)
Record fetch := {
  outcome : result value;
  latency : N
}.

(** Everything outside the process, as a function of the instant (in
    microseconds) at which it is consulted. *)
Record environment := {
  isoformat : Z -> string;              (* [datetime.isoformat()] *)
  strftime_seconds : Z -> string;       (* [strftime('%Y-%m-%d %H:%M:%S')] *)
  get_gold_411060_data : Z -> fetch;
  get_us_gold_futures_data : Z -> fetch;
  get_gd_gold_spot : Z -> fetch;
  get_usd_krw_rate : Z -> fetch;
  stop_requested : Z -> bool            (* [stop_collection()] is called
                                           during a sleep begun at this instant *)
}.

(** Ghost log of the calls made, used to state when things happen. *)
Inductive event :=
| FetchBegin (s : source) (t : Z)
| FetchEnd (s : source) (t : Z)
| SaveMarketData (success : bool)
| CycleBegin (n : Z) (t : Z)
| CycleEnd (n : Z) (t : Z).

Record state := {
  clock : Z;
  db : database;
  running : bool;
  trace : list event
}.

Definition M (A : Type) : Type := state -> A * state.

Definition ret {A : Type} (a : A) : M A := fun st => (a, st).

Definition seq {A B : Type} (c : M A) (k : A -> M B) : M B :=
  fun st => let '(a, st') := c st in k a st'.

Notation "'do' x <- c ; k" := (seq c (fun x => k))
  (at level 10, x name, c at level 100, k at level 200).

Definition now : M Z := fun st => (clock st, st).

Definition log (e : event) : M unit := fun st =>
  (tt, {| clock := clock st; db := db st; running := running st;
          trace := trace st ++ [e] |}).

Definition set_running (b : bool) : M unit := fun st =>
  (tt, {| clock := clock st; db := db st; running := b; trace := trace st |}).

(** A blocking call of a source client: nothing else runs until it is over. *)
Definition call_client (s : source) (client : Z -> fetch) : M (result value) :=
  fun st =>
    let f := client (clock st) in
    let finished := clock st + Z.of_N (latency f) in
    (outcome f,
     {| clock := finished; db := db st; running := running st;
        trace := trace st ++ [FetchBegin s (clock st); FetchEnd s finished] |}).

(** Block 1 of [collect_all_data]: the ETF quote is kept when it is a dict
    one of whose three prices is above zero. *)
Definition keep_domestic (r : result value) : value :=
  let body : result value :=
    domestic_result <- r ;;
    match domestic_result with
    | VDict d =>
        let current_price := dict_get d "current_price" (VInt 0) in
        let bid_price := dict_get d "bid_price_1" (VInt 0) in
        let ask_price := dict_get d "ask_price_1" (VInt 0) in
        c <- gt0 current_price ;;
        valid <- (if (c : bool) then Ok true
                  else b <- gt0 bid_price ;;
                       if (b : bool) then Ok true else gt0 ask_price) ;;
        Ok (if (valid : bool) then domestic_result else VNone)
    | _ => Ok VNone
    end
  in
  match body with
  | Ok v => v
  | Raise _ => VNone
  end.

(** Blocks 2, 3 and 4 of [collect_all_data], which read alike: the result is
    kept when it is a dict whose [current_price] is above zero. *)
Definition keep_current_price (r : result value) : value :=
  let body : result value :=
    res <- r ;;
    match res with
    | VDict d =>
        c <- gt0 (dict_get d "current_price" (VInt 0)) ;;
        Ok (if (c : bool) then res else VNone)
    | _ => Ok VNone
    end
  in
  match body with
  | Ok v => v
  | Raise _ => VNone
  end.

Definition nav_calculator : NAVCalculator := NavCalculator.init.

(** [DataCollector.collect_all_data].  The [timestamp] entry, a datetime in
    the source, is kept as its ISO text.  Block 5 cannot raise, both
    calculator methods being total. *)
Definition collect_all_data (env : environment) : M (gmap string value) :=
  do collection_time <- now;
  do domestic_result <- call_client Domestic (get_gold_411060_data env);
  let domestic_data := keep_domestic domestic_result in
  do us_result <- call_client UsFutures (get_us_gold_futures_data env);
  let us_futures_data := keep_current_price us_result in
  do spot_result <- call_client GoldSpot (get_gd_gold_spot env);
  let gold_spot_data := keep_current_price spot_result in
  do usd_result <- call_client UsdKrw (get_usd_krw_rate env);
  let usd_krw_data := keep_current_price usd_result in
  do nav_time <- now;
  let market_data_for_nav : gmap string value :=
    {[ "domestic" := domestic_data;
       "us_futures" := us_futures_data;
       "gold_spot" := gold_spot_data;
       "usd_krw" := usd_krw_data ]} in
  let nav_result :=
    calculate_nav_with_all_data nav_calculator (isoformat env nav_time)
      market_data_for_nav in
  let nav_data := format_nav_for_display nav_result in
  ret {[ "domestic" := domestic_data;
         "us_futures" := us_futures_data;
         "gold_spot" := gold_spot_data;
         "usd_krw" := usd_krw_data;
         "nav" := VDict nav_data;
         "timestamp" := VStr (isoformat env collection_time) ]}.

(** The call of [db_manager.save_market_data] in [collect_and_save_once]. *)
Definition save (env : environment) (collected_data : gmap string value) : M bool :=
  fun st =>
    let '(success, db') :=
      save_market_data (db st)
        (strftime_seconds env (clock st)) (isoformat env (clock st))
        (dict_get collected_data "domestic" VNone)
        (dict_get collected_data "us_futures" VNone)
        (dict_get collected_data "gold_spot" VNone)
        (dict_get collected_data "nav" VNone)
        (dict_get collected_data "usd_krw" VNone) in
    (success,
     {| clock := clock st; db := db'; running := running st;
        trace := trace st ++ [SaveMarketData success] |}).

(** The test [any([...])] of [collect_and_save_once]. *)
Definition any_data (collected_data : gmap string value) : bool :=
  existsb truthy
    [ dict_get collected_data "domestic" VNone;
      dict_get collected_data "us_futures" VNone;
      dict_get collected_data "gold_spot" VNone;
      dict_get collected_data "nav" VNone;
      dict_get collected_data "usd_krw" VNone ].

(** [DataCollector.collect_and_save_once] *)
Definition collect_and_save_once (env : environment) : M (gmap string value) :=
  do collected_data <- collect_all_data env;
  if any_data collected_data then
    do _ <- save env collected_data;
    ret collected_data
  else ret collected_data.

(** One second, the period of the loop, in microseconds. *)
Definition period : Z := 1000000.

(** [asyncio.sleep(d)]: the only point of the loop at which other tasks run,
    among them a caller of [stop_collection]. *)
Definition sleep (env : environment) (d : Z) : M unit := fun st =>
  (tt, {| clock := clock st + d; db := db st;
          running := running st && negb (stop_requested env (clock st));
          trace := trace st |}).

(** The [while self.running] loop of [start_real_time_collection], cut off
    after [fuel] iterations; the value is [count]. *)
Fixpoint cycles (env : environment) (fuel : nat) (count : Z) : M Z :=
  match fuel with
  | O => ret count
  | S fuel' => fun st =>
      if running st then
        (let count := count + 1 in
         do start_time <- now;
         do _ <- log (CycleBegin count start_time);
         do _ <- collect_and_save_once env;
         do finished <- now;
         do _ <- log (CycleEnd count finished);
         let elapsed := finished - start_time in
         let sleep_time := Z.max 0 (period - elapsed) in
         do _ <- (if 0 <? sleep_time then sleep env sleep_time else ret tt);
         cycles env fuel' count) st
      else (count, st)
  end.

(** [DataCollector.start_real_time_collection] *)
Definition start_real_time_collection (env : environment) (fuel : nat) : M Z :=
  do _ <- set_running true;
  do count <- cycles env fuel 0;
  do _ <- set_running false;
  ret count.

End Collector.

(** ** korean_investment_gold.py and yahoo_finance_simple.py *)

Module Clients.
Import Py.

(** A decoded JSON document, as [response.json()] returns it.  [true] and
    [false] are Python bools, which count as the ints 1 and 0 in every
    operation of these clients. *)
Inductive json :=
| JNull
| JBool (b : bool)
| JInt (z : Z)
| JFloat (f : spec_float)
| JStr (s : string)
| JList (l : list json)
| JObj (o : gmap string json).

Definition json_type_name (j : json) : string :=
  match j with
  | JNull => "NoneType"
  | JBool _ => "bool"
  | JInt _ => "int"
  | JFloat _ => "float"
  | JStr _ => "str"
  | JList _ => "list"
  | JObj _ => "dict"
  end.

(** [bool(j)] *)
Definition json_truthy (j : json) : bool :=
  match j with
  | JNull => false
  | JBool b => b
  | JInt z => negb (z =? 0)
  | JFloat f => negb (SFeqb f fzero)
  | JStr s => negb (String.eqb s "")
  | JList l => negb (Nat.eqb (length l) 0)
  | JObj o => negb (Nat.eqb (size o) 0)
  end.

(** [j.get(key, default)] *)
Definition json_get (j : json) (key : string) (dflt : json) : result json :=
  match j with
  | JObj o => Ok (default dflt (o !! key))
  | _ => Raise (AttributeError ("'" +:+ json_type_name j +:+ "' object has no attribute 'get'"))
  end.

(** [j == text] *)
Definition json_is (j : json) (text : string) : bool :=
  match j with
  | JStr s => String.eqb s text
  | _ => false
  end.

(** What [float] and [int] make of a string. *)
Record conversions := {
  float_of_str : string -> result spec_float;
  int_of_str : string -> result Z
}.

(** [float(j)] *)
Definition py_float (cv : conversions) (j : json) : result spec_float :=
  match j with
  | JInt z => float_of_int z
  | JBool b => Ok (float_of_Z (if b then 1 else 0))
  | JFloat f => Ok f
  | JStr s => float_of_str cv s
  | _ => Raise (TypeError ("float() argument must be a string or a real number, not '"
                           +:+ json_type_name j +:+ "'"))
  end.

(** [int(j)]: a float is cut towards zero. *)
Definition py_int (cv : conversions) (j : json) : result Z :=
  match j with
  | JInt z => Ok z
  | JBool b => Ok (if b then 1 else 0)
  | JFloat S754_nan => Raise (ValueError "cannot convert float NaN to integer")
  | JFloat (S754_infinity _) =>
      Raise (OverflowError "cannot convert float infinity to integer")
  | JFloat (S754_zero _) => Ok 0
  | JFloat (S754_finite s m e) =>
      let magnitude := if 0 <=? e then Zpos m * 2 ^ e else Zpos m / 2 ^ (- e) in
      Ok (if s then - magnitude else magnitude)
  | JStr s => int_of_str cv s
  | _ => Raise (TypeError
                  ("int() argument must be a string, a bytes-like object or a real number, not '"
                   +:+ json_type_name j +:+ "'"))
  end.

(** An HTTP answer: the status and the decoded body, or the exception that
    [response.json()] raises. *)
Record response := {
  status_code : Z;
  json_body : result json
}.

(** *** The access token *)

(** [access_token] and [token_expire_time] of the client; the expiry is an
    instant in microseconds (one without a time zone is read as Korean
    time). *)
Record token_state := {
  access_token : json;
  token_expire_time : option Z
}.

(** What the outside gives to one call of a client. *)
Record io := {
  checked_at : Z;                   (* the clock when the token is checked *)
  issued_at : Z;                    (* the clock when a new token is stored *)
  stamp : string;                   (* [get_korean_time().isoformat()] *)
  token_reply : result response;    (* answer to the token request *)
  token_file : result unit;         (* writing token_data.pkl *)
  reply : result response           (* answer to the data request *)
}.

Definition hours_23 : Z := 23 * 3600 * 1000000.

(** [KoreanInvestmentGoldAPI.is_token_valid] *)
Definition is_token_valid (ts : token_state) (now : Z) : bool :=
  match token_expire_time ts with
  | Some expire => if json_truthy (access_token ts) then now <? expire else false
  | None => false
  end.

(** [key in j]; [None] when [j] is not a container. *)
Definition json_in (key : string) (j : json) : option bool :=
  match j with
  | JObj o => Some (bool_decide (is_Some (o !! key)))
  | JList l => Some (existsb (fun x => json_is x key) l)
  | JStr s => Some (bool_decide (is_Some (String.index 0 key s)))
  | _ => None
  end.

(** [j[key]]; [None] when it raises. *)
Definition json_item (j : json) (key : string) : option json :=
  match j with
  | JObj o => o !! key
  | _ => None
  end.

(** [j[0]]; [None] when it raises. *)
Definition json_first (j : json) : option json :=
  match j with
  | JList (x :: _) => Some x
  | JStr (String c _) => Some (JStr (String c ""))
  | _ => None
  end.

Definition ok_of {A : Type} (r : result A) : option A :=
  match r with
  | Ok a => Some a
  | Raise _ => None
  end.

(** [KoreanInvestmentGoldAPI.get_access_token]: the flag returned and the
    client afterwards.  Every exception ends in [return False]; one raised
    while the file is written comes after the new token is stored. *)
Definition get_access_token (ts : token_state) (w : io) : bool * token_state :=
  let granted : option token_state :=
    resp ← ok_of (token_reply w);
    result ← ok_of (json_body resp);
    has ← (if status_code resp =? 200 then json_in "access_token" result else Some false);
    if (has : bool) then
      token ← json_item result "access_token";
      Some {| access_token := token;
              token_expire_time := Some (issued_at w + hours_23) |}
    else None
  in
  match granted with
  | Some ts' => (match token_file w with Ok _ => true | Raise _ => false end, ts')
  | None => (false, ts)
  end.

(** The guard at the head of the three data methods:
    [if not self.is_token_valid(): if not self.get_access_token(): return ...]. *)
Definition ensure_token (ts : token_state) (w : io) : bool * token_state :=
  if is_token_valid ts (checked_at w) then (true, ts) else get_access_token ts w.

Definition token_refused : string := "토큰을 재발급하세요. API 키를 확인해주세요.".
Definition token_expired : string := "토큰이 만료되었습니다. 토큰을 재발급하세요.".
Definition market_closed : string := "시장 시간 외이거나 심볼 오류일 수 있음".

(** [KoreanInvestmentGoldAPI.__init__].  [app_key] and [app_secret] are the
    two environment variables, [stored] what [load_token_from_file] finds. *)
Definition init (app_key app_secret : option string) (stored : option token_state)
    (w : io) : result token_state :=
  let present (v : option string) :=
    match v with
    | Some s => negb (String.eqb s "")
    | None => false
    end in
  if present app_key && present app_secret then
    let ts := default {| access_token := JNull; token_expire_time := None |} stored in
    if is_token_valid ts (checked_at w) then Ok ts
    else Ok (snd (get_access_token ts w))
  else Raise (ValueError "APP_KEY와 APP_SECRET이 .env 파일에 설정되어야 합니다.").

(** *** The three quotes of the broker *)

(** The [result] with which the ETF and the gold spot methods start. *)
Definition zero_quote (stamp : string) : gmap string value :=
  {[ "current_price" := VInt 0;
     "bid_price_1" := VInt 0;
     "bid_volume_1" := VInt 0;
     "ask_price_1" := VInt 0;
     "ask_volume_1" := VInt 0;
     "timestamp" := VStr stamp ]}.

(** [result.update({...})] with the five numbers read. *)
Definition filled_quote (stamp : string) (current_price bid_price : spec_float)
    (bid_volume : Z) (ask_price : spec_float) (ask_volume : Z) : gmap string value :=
  <[ "current_price" := VFloat current_price ]>
  (<[ "bid_price_1" := VFloat bid_price ]>
  (<[ "bid_volume_1" := VInt bid_volume ]>
  (<[ "ask_price_1" := VFloat ask_price ]>
  (<[ "ask_volume_1" := VInt ask_volume ]> (zero_quote stamp))))).

(** [response.status_code == 200 and api_result.get("rt_cd") == "0"] *)
Definition answered (resp : response) (api_result : json) : result bool :=
  if status_code resp =? 200 then
    rt_cd <- json_get api_result "rt_cd" JNull ;;
    Ok (json_is rt_cd "0")
  else Ok false.

(** [float(output.get(key, 0))] and [int(output.get(key, 0))] *)
Definition float_field (cv : conversions) (output : json) (key : string) : result spec_float :=
  v <- json_get output key (JInt 0) ;; py_float cv v.

Definition int_field (cv : conversions) (output : json) (key : string) : result Z :=
  v <- json_get output key (JInt 0) ;; py_int cv v.

(** [KoreanInvestmentGoldAPI.get_gold_411060_data]: what is returned and the
    client afterwards. *)
Definition get_gold_411060_data (cv : conversions) (ts : token_state) (w : io)
    : value * token_state :=
  let '(token_ok, ts') := ensure_token ts w in
  if negb token_ok then (VStr token_refused, ts')
  else
    let body : result value :=
      resp <- reply w ;;
      api_result <- json_body resp ;;
      ok <- answered resp api_result ;;
      if (ok : bool) then
        output1 <- json_get api_result "output1" (JObj ∅) ;;
        output2 <- json_get api_result "output2" (JObj ∅) ;;
        current_price <- float_field cv output2 "stck_prpr" ;;
        bid_price <- float_field cv output1 "bidp1" ;;
        bid_volume <- int_field cv output1 "bidp_rsqn1" ;;
        ask_price <- float_field cv output1 "askp1" ;;
        ask_volume <- int_field cv output1 "askp_rsqn1" ;;
        Ok (VDict (filled_quote (stamp w) current_price bid_price bid_volume
                     ask_price ask_volume))
      else
        rt_cd <- json_get api_result "rt_cd" JNull ;;
        if json_is rt_cd "1" then Ok (VStr token_expired)
        else Ok (VDict (zero_quote (stamp w)))
    in
    match body with
    | Ok v => (v, ts')
    | Raise e => (VStr ("API 호출 오류: " +:+ exn_str e +:+ ". 토큰을 재발급하세요."), ts')
    end.

(** [KoreanInvestmentGoldAPI.get_gd_gold_spot].  The body gives [Some v] at
    a [return v] inside the [try]; when it falls through or raises, the
    method returns the [result] it started with. *)
Definition get_gd_gold_spot (cv : conversions) (ts : token_state) (w : io)
    : value * token_state :=
  let '(token_ok, ts') := ensure_token ts w in
  if negb token_ok then (VStr token_refused, ts')
  else
    let body : result (option value) :=
      resp <- reply w ;;
      api_result <- json_body resp ;;
      _ <- json_get api_result "rt_cd" JNull ;;
      ok <- answered resp api_result ;;
      if (ok : bool) then
        output1 <- json_get api_result "output1" (JObj ∅) ;;
        output2 <- json_get api_result "output2" (JObj ∅) ;;
        current_price <- float_field cv output2 "stck_prpr" ;;
        if SFltb fzero current_price then
          bid_price <- float_field cv output1 "bidp1" ;;
          bid_volume <- int_field cv output1 "bidp_rsqn1" ;;
          ask_price <- float_field cv output1 "askp1" ;;
          ask_volume <- int_field cv output1 "askp_rsqn1" ;;
          Ok (Some (VDict (filled_quote (stamp w) current_price bid_price bid_volume
                             ask_price ask_volume)))
        else Ok None
      else
        rt_cd <- json_get api_result "rt_cd" JNull ;;
        if json_is rt_cd "1" then Ok (Some (VStr token_expired)) else Ok None
    in
    match body with
    | Ok (Some v) => (v, ts')
    | _ => (VDict (zero_quote (stamp w)), ts')
    end.

(** [KoreanInvestmentGoldAPI.get_us_gold_futures_data].  When the answer is
    not the expected one the method runs off its end and returns [None]. *)
Definition get_us_gold_futures_data (cv : conversions) (ts : token_state) (w : io)
    : value * token_state :=
  let '(token_ok, ts') := ensure_token ts w in
  if negb token_ok then (VStr token_refused, ts')
  else
    let body : result value :=
      resp <- reply w ;;
      result <- json_body resp ;;
      ok <- answered resp result ;;
      if (ok : bool) then
        output <- json_get result "output" (JObj ∅) ;;
        current_price <- float_field cv output "last" ;;
        bid_price <- float_field cv output "bid" ;;
        ask_price <- float_field cv output "ask" ;;
        bid_volume <- int_field cv output "bid_size" ;;
        ask_volume <- int_field cv output "ask_size" ;;
        Ok (VDict {[ "current_price" := VFloat current_price;
                     "bid_price" := VFloat bid_price;
                     "ask_price" := VFloat ask_price;
                     "bid_volume" := VInt bid_volume;
                     "ask_volume" := VInt ask_volume;
                     "timestamp" := VStr (stamp w) ]})
      else Ok VNone
    in
    match body with
    | Ok v => (v, ts')
    | Raise _ => (VStr market_closed, ts')
    end.

(** *** The exchange rate *)

(** A JSON number above zero, as the Python value it is; [Some None] for a
    number that is not above zero and [None] when [j > 0] raises. *)
Definition above_zero (j : json) : option (option value) :=
  match j with
  | JInt z => Some (if 0 <? z then Some (VInt z) else None)
  | JFloat f => Some (if SFltb fzero f then Some (VFloat f) else None)
  | JBool b => Some (if b then Some (VInt 1) else None)
  | _ => None
  end.

(** [f"{v:,.2f}"] in the [print] of the rate: it raises for an int too
    large for a float. *)
Definition printable (v : value) : option unit :=
  match v with
  | VInt z => _ ← ok_of (float_of_int z); Some tt
  | VFloat _ => Some tt
  | _ => None
  end.

(** [YahooFinanceAPI.get_usd_krw_rate]: every exception ends in
    [return None]. *)
Definition get_usd_krw_rate (stamp : string) (reply : result response) : value :=
  let body : option value :=
    resp ← ok_of reply;
    data ← ok_of (json_body resp);
    has ← (if status_code resp =? 200 then json_in "chart" data else Some false);
    if (has : bool) then
      chart_field ← json_item data "chart";
      results ← json_item chart_field "result";
      chart ← json_first results;
      meta ← json_item chart "meta";
      current_price ← ok_of (json_get meta "regularMarketPrice" (JInt 0));
      price ← above_zero current_price;
      match price with
      | Some v =>
          _ ← printable v;
          Some (VDict {[ "current_price" := v; "timestamp" := VStr stamp ]})
      | None => Some VNone
      end
    else Some VNone
  in
  default VNone body.

End Clients.

(** ** Vocabulary of the properties *)

Module Props.
Import Py NavCalculator Sqlite DbManager Collector.

(** "The last [n] appended records, newest first." *)
Definition newest_first (db : database) (n : Z) : list (gmap string value) :=
  (fun r : row => cell_value <$> r)
    <$> take (Z.to_nat n) (rev (default [] (gold_data db))).

(** [a]'s [created_at] sorts strictly before [b]'s. *)
Definition created_before (a b : row) : Prop :=
  sql_compare (created_at a) (created_at b) = Lt.

(** A store with a table and no rows. *)
Definition empty_store (db : database) : Prop :=
  accessible db = true /\ gold_data db = Some [].

(** The statement of [save_market_data] with [usd_krw_rate] named once:
    nineteen columns for nineteen values. *)
Definition insert_nineteen_columns : insert_statement := {|
  into_columns :=
    [ "timestamp"; "usd_krw_rate"; "domestic_current_price"; "domestic_bid_price_1";
      "domestic_bid_volume_1"; "domestic_ask_price_1"; "domestic_ask_volume_1";
      "us_futures_current_price"; "us_futures_bid_price_1"; "us_futures_bid_volume_1";
      "us_futures_ask_price_1"; "us_futures_ask_volume_1";
      "domestic_gold_spot_current_price"; "domestic_gold_spot_bid_price_1";
      "domestic_gold_spot_bid_volume_1"; "domestic_gold_spot_ask_price_1";
      "domestic_gold_spot_ask_volume_1";
      "nav_value"; "created_at" ];
  values_count := 19
|}.

(** *** One cycle of the collector *)

(** The call that each client receives in a cycle begun at [t0]: a client is
    called when the one before it has answered. *)
Definition fetched (env : environment) (t0 : Z) (s : source) : fetch :=
  let f1 := get_gold_411060_data env t0 in
  let t1 := t0 + Z.of_N (latency f1) in
  let f2 := get_us_gold_futures_data env t1 in
  let t2 := t1 + Z.of_N (latency f2) in
  let f3 := get_gd_gold_spot env t2 in
  let t3 := t2 + Z.of_N (latency f3) in
  let f4 := get_usd_krw_rate env t3 in
  match s with
  | Domestic => f1
  | UsFutures => f2
  | GoldSpot => f3
  | UsdKrw => f4
  end.

Definition wait (env : environment) (t0 : Z) (s : source) : Z :=
  Z.of_N (latency (fetched env t0 s)).

(** The instant at which the call of a client begins. *)
Definition begins (env : environment) (t0 : Z) (s : source) : Z :=
  match s with
  | Domestic => t0
  | UsFutures => t0 + wait env t0 Domestic
  | GoldSpot => t0 + wait env t0 Domestic + wait env t0 UsFutures
  | UsdKrw => t0 + wait env t0 Domestic + wait env t0 UsFutures + wait env t0 GoldSpot
  end.

Definition ends (env : environment) (t0 : Z) (s : source) : Z :=
  begins env t0 s + wait env t0 s.

Definition key_of (s : source) : string :=
  match s with
  | Domestic => "domestic"
  | UsFutures => "us_futures"
  | GoldSpot => "gold_spot"
  | UsdKrw => "usd_krw"
  end.

(** The check that [collect_all_data] applies to the answer of a client. *)
Definition keep (s : source) (r : result value) : value :=
  match s with
  | Domestic => keep_domestic r
  | _ => keep_current_price r
  end.

(** "Strictly positive", for an entry of a snapshot. *)
Definition positive (v : value) : bool :=
  match gt0 v with
  | Ok b => b
  | Raise _ => false
  end.

Definition is_number (v : value) : bool :=
  match v with
  | VInt _ | VFloat _ => true
  | _ => false
  end.

Definition bid_key (s : source) : string :=
  match s with
  | UsFutures => "bid_price"
  | _ => "bid_price_1"
  end.

Definition ask_key (s : source) : string :=
  match s with
  | UsFutures => "ask_price"
  | _ => "ask_price_1"
  end.

(** The rule of the specification: one of the three prices is strictly
    positive. *)
Definition any_price_positive (s : source) (d : gmap string value) : bool :=
  positive (dict_get d "current_price" (VInt 0))
  || positive (dict_get d (bid_key s) (VInt 0))
  || positive (dict_get d (ask_key s) (VInt 0)).

(** The rule of the code: that one for the ETF quote, the current price
    alone for the three other sources. *)
Definition valid_snapshot (s : source) (d : gmap string value) : bool :=
  match s with
  | Domestic => any_price_positive Domestic d
  | _ => positive (dict_get d "current_price" (VInt 0))
  end.

Definition priced_in_numbers (d : gmap string value) : bool :=
  is_number (dict_get d "current_price" (VInt 0))
  && is_number (dict_get d "bid_price_1" (VInt 0))
  && is_number (dict_get d "ask_price_1" (VInt 0)).

(** The part of the log written since [st]. *)
Definition events_since (st st' : state) : list event :=
  drop (length (trace st)) (trace st').

Definition is_cycle_event (e : event) : bool :=
  match e with
  | CycleBegin _ _ | CycleEnd _ _ => true
  | _ => false
  end.

(** Some call of a client begins while another is still open. *)
Fixpoint some_overlap (open : bool) (evs : list event) : bool :=
  match evs with
  | [] => false
  | FetchBegin _ _ :: rest => open || some_overlap true rest
  | FetchEnd _ _ :: rest => some_overlap false rest
  | _ :: rest => some_overlap open rest
  end.

(** The cycles of a log follow one another: a cycle begins only when none
    is open and not before the instant [last] of the previous cycle event,
    and the cycle that ends is the one that is open. *)
Fixpoint one_cycle_at_a_time (open : option Z) (last : Z) (evs : list event) : bool :=
  match evs with
  | [] => true
  | CycleBegin n t :: rest =>
      match open with
      | None => (last <=? t) && one_cycle_at_a_time (Some n) t rest
      | Some _ => false
      end
  | CycleEnd n t :: rest =>
      match open with
      | Some m => (m =? n) && (last <=? t) && one_cycle_at_a_time None t rest
      | None => false
      end
  | _ :: rest => one_cycle_at_a_time open last rest
  end.

(** The calls of the clients in a cycle begun at [t0], as logged. *)
Definition fetch_events (env : environment) (t0 : Z) : list event :=
  [ FetchBegin Domestic (begins env t0 Domestic);
    FetchEnd Domestic (ends env t0 Domestic);
    FetchBegin UsFutures (begins env t0 UsFutures);
    FetchEnd UsFutures (ends env t0 UsFutures);
    FetchBegin GoldSpot (begins env t0 GoldSpot);
    FetchEnd GoldSpot (ends env t0 GoldSpot);
    FetchBegin UsdKrw (begins env t0 UsdKrw);
    FetchEnd UsdKrw (ends env t0 UsdKrw) ].

Definition is_refused_save (e : event) : bool :=
  match e with
  | SaveMarketData false => true
  | _ => false
  end.

(** "The fetches execute concurrently": two calls are open at once. *)
Definition fetches_concurrent (evs : list event) : Prop :=
  some_overlap false evs = true.

(** The state in which iteration [count] of the loop leaves [st]. *)
Definition after_cycle (env : environment) (count : Z) (st : state) : state :=
  let t0 := clock st in
  let t1 := ends env t0 UsdKrw in
  let sleep_time := Z.max 0 (period - (t1 - t0)) in
  {| clock := if 0 <? sleep_time then t1 + sleep_time else t1;
     db := db st;
     running := if 0 <? sleep_time then running st && negb (stop_requested env t1)
                else running st;
     trace := trace st ++ [CycleBegin count t0] ++ fetch_events env t0
                       ++ [SaveMarketData false; CycleEnd count t1] |}.

(** *** Concrete stores and snapshots *)

Definition fresh_database : database := {|
  accessible := true;
  writable := true;
  gold_data := Some [];
  current_timestamp := "2025-06-02 01:00:00"
|}.

(** Two records, the second appended with an earlier [created_at] than the
    first (the wall clock was set back between the two). *)
Definition first_record : row :=
  {[ "id" := Integer 1; "timestamp" := Text "2025-06-02T10:00:05.120000+09:00";
     "nav_value" := Real (float_of_Z 21700); "created_at" := Text "2025-06-02 10:00:05" ]}.

Definition second_record : row :=
  {[ "id" := Integer 2; "timestamp" := Text "2025-06-02T10:00:03.480000+09:00";
     "nav_value" := Real (float_of_Z 21714); "created_at" := Text "2025-06-02 10:00:03" ]}.

Definition clock_set_back : database := {|
  accessible := true;
  writable := true;
  gold_data := Some [first_record; second_record];
  current_timestamp := "2025-06-02 01:00:04"
|}.

(** Two records appended within the same second. *)
Definition third_record : row :=
  {[ "id" := Integer 2; "timestamp" := Text "2025-06-02T10:00:05.910000+09:00";
     "nav_value" := Real (float_of_Z 21714); "created_at" := Text "2025-06-02 10:00:05" ]}.

Definition same_second : database := {|
  accessible := true;
  writable := true;
  gold_data := Some [first_record; third_record];
  current_timestamp := "2025-06-02 01:00:06"
|}.

(** Records stamped one second apart. *)
Definition fourth_record : row :=
  {[ "id" := Integer 2; "timestamp" := Text "2025-06-02T10:00:06.100000+09:00";
     "nav_value" := Real (float_of_Z 21714); "created_at" := Text "2025-06-02 10:00:06" ]}.

Definition one_per_second : database := {|
  accessible := true;
  writable := true;
  gold_data := Some [first_record; fourth_record];
  current_timestamp := "2025-06-02 01:00:07"
|}.

Definition unreadable : database := {|
  accessible := false;
  writable := false;
  gold_data := Some [first_record];
  current_timestamp := "2025-06-02 01:00:07"
|}.

(** An ETF quote with a bid and an ask but no last price, as
    [get_gold_411060_data] builds it when the response carries no
    [stck_prpr]: the missing price is [float(0)]. *)
Definition quote_without_last_price : gmap string value :=
  {[ "current_price" := VFloat fzero;
     "bid_price_1" := VFloat (float_of_Z 21500);
     "bid_volume_1" := VInt 120;
     "ask_price_1" := VFloat (float_of_Z 21505);
     "ask_volume_1" := VInt 80;
     "timestamp" := VStr "2025-06-02T10:00:00.250000+09:00" ]}.

(** The parameters of a cycle with that quote alone, run through the
    nineteen-column statement on a fresh database. *)
Definition accepted_insert : result database :=
  params <- insert_parameters "2025-06-02 10:00:00" "2025-06-02T10:00:00.350000+09:00"
              (VDict quote_without_last_price) VNone VNone
              (VDict {[ "nav_value" := VInt 0 ]}) VNone ;;
  execute_insert fresh_database insert_nineteen_columns params.

(** *** Concrete cycles *)

Definition show_Z (z : Z) : string :=
  (if z <? 0 then "-" else "") +:+ NilZero.string_of_uint (N.to_uint (Z.abs_N z)).

Definition timeout : result value :=
  Raise (RequestException "HTTPSConnectionPool: Read timed out.").

Definition answer (r : result value) (l : N) : Z -> fetch :=
  fun _ => {| outcome := r; latency := l |}.

Definition idle_state : state := {|
  clock := 0;
  db := fresh_database;
  running := false;
  trace := []
|}.

(** Every source times out after two seconds. *)
Definition all_sources_fail : environment := {|
  isoformat t := "iso " +:+ show_Z t;
  strftime_seconds t := "sec " +:+ show_Z (t / 1000000);
  get_gold_411060_data := answer timeout 2000000;
  get_us_gold_futures_data := answer timeout 2000000;
  get_gd_gold_spot := answer timeout 2000000;
  get_usd_krw_rate := answer timeout 2000000;
  stop_requested _ := false
|}.

Definition empty_cycle : gmap string value :=
  fst (collect_all_data all_sources_fail idle_state).

Definition empty_cycle_metric : gmap string value :=
  calculate_nav_with_all_data nav_calculator "iso 8000000"
    {[ "domestic" := VNone; "us_futures" := VNone;
       "gold_spot" := VNone; "usd_krw" := VNone ]}.

Definition parameters_of (collected_data : gmap string value) : result (list value) :=
  insert_parameters "sec 8" "iso 8000000"
    (dict_get collected_data "domestic" VNone)
    (dict_get collected_data "us_futures" VNone)
    (dict_get collected_data "gold_spot" VNone)
    (dict_get collected_data "nav" VNone)
    (dict_get collected_data "usd_krw" VNone).

(** A US futures quote with a bid and an ask but no last price. *)
Definition futures_without_last_price : gmap string value :=
  {[ "current_price" := VFloat fzero;
     "bid_price" := VFloat (float_of_Z 2650);
     "ask_price" := VFloat (float_of_Z 2651);
     "bid_volume" := VInt 3;
     "ask_volume" := VInt 4;
     "timestamp" := VStr "2025-06-02T10:00:00.700000+09:00" ]}.

Definition etf_quote : gmap string value :=
  {[ "current_price" := VFloat (float_of_Z 21500);
     "bid_price_1" := VFloat (float_of_Z 21495);
     "bid_volume_1" := VInt 120;
     "ask_price_1" := VFloat (float_of_Z 21505);
     "ask_volume_1" := VInt 80;
     "timestamp" := VStr "2025-06-02T10:00:00.250000+09:00" ]}.

(** What [get_gd_gold_spot] returns when it has no price. *)
Definition all_zero_quote : gmap string value :=
  {[ "current_price" := VInt 0;
     "bid_price_1" := VInt 0;
     "bid_volume_1" := VInt 0;
     "ask_price_1" := VInt 0;
     "ask_volume_1" := VInt 0;
     "timestamp" := VStr "2025-06-02T10:00:03.100000+09:00" ]}.

Definition usd_krw_quote : gmap string value :=
  {[ "current_price" := VFloat (float_of_Z 1340);
     "timestamp" := VStr "2025-06-02T10:00:03.400000+09:00" ]}.

(** The futures client answers with a bid and an ask and no last price. *)
Definition futures_bid_only : environment := {|
  isoformat t := "iso " +:+ show_Z t;
  strftime_seconds t := "sec " +:+ show_Z (t / 1000000);
  get_gold_411060_data := answer (Ok (VDict etf_quote)) 250000;
  get_us_gold_futures_data := answer (Ok (VDict futures_without_last_price)) 450000;
  get_gd_gold_spot := answer (Ok (VDict all_zero_quote)) 300000;
  get_usd_krw_rate := answer (Ok (VDict usd_krw_quote)) 200000;
  stop_requested _ := false
|}.

(** The scenario of the specification: source 2 times out, source 3
    answers with zero prices, sources 1 and 4 answer with a price. *)
Definition two_of_four : environment := {|
  isoformat t := "iso " +:+ show_Z t;
  strftime_seconds t := "sec " +:+ show_Z (t / 1000000);
  get_gold_411060_data := answer (Ok (VDict etf_quote)) 250000;
  get_us_gold_futures_data := answer timeout 10000000;
  get_gd_gold_spot := answer (Ok (VDict all_zero_quote)) 300000;
  get_usd_krw_rate := answer (Ok (VDict usd_krw_quote)) 200000;
  stop_requested _ := false
|}.

(** The first client takes five seconds, the three others a tenth of a
    second each. *)
Definition slow_first_source : environment := {|
  isoformat t := "iso " +:+ show_Z t;
  strftime_seconds t := "sec " +:+ show_Z (t / 1000000);
  get_gold_411060_data := answer (Ok (VDict etf_quote)) 5000000;
  get_us_gold_futures_data := answer timeout 100000;
  get_gd_gold_spot := answer (Ok (VDict all_zero_quote)) 100000;
  get_usd_krw_rate := answer (Ok (VDict usd_krw_quote)) 100000;
  stop_requested _ := false
|}.

(** The ETF client answers with a bid and an ask and no last price; the
    three other sources time out. *)
Definition etf_bid_only : environment := {|
  isoformat t := "iso " +:+ show_Z t;
  strftime_seconds t := "sec " +:+ show_Z (t / 1000000);
  get_gold_411060_data := answer (Ok (VDict quote_without_last_price)) 2000000;
  get_us_gold_futures_data := answer timeout 2000000;
  get_gd_gold_spot := answer timeout 2000000;
  get_usd_krw_rate := answer timeout 2000000;
  stop_requested _ := false
|}.

Definition bid_only_cycle : gmap string value :=
  fst (collect_all_data etf_bid_only idle_state).

End Props.

(** ** Vocabulary of the further properties *)

Module Facts.
Import Py NavCalculator Sqlite DbManager Collector Props.

(** An entry of the market data as [collect_all_data] builds it. *)
Definition none_or_dict (v : value) : bool :=
  match v with
  | VNone | VDict _ => true
  | _ => false
  end.

(** The three entries of the market data that do not feed the formula. *)
Definition other_sources : list string := ["domestic"; "us_futures"; "usd_krw"].

(** The price that [calculate_nav_with_all_data] reads from the gold spot
    entry. *)
Definition gold_spot_price_of (market_data : gmap string value) : value :=
  match dict_get market_data "gold_spot" VNone with
  | VDict d => if truthy (VDict d) then dict_get d "current_price" (VInt 0) else VInt 0
  | _ => VInt 0
  end.

Definition has_gold_spot (market_data : gmap string value) : bool :=
  match dict_get market_data "gold_spot" VNone with
  | VDict d => truthy (VDict d)
  | _ => false
  end.

(** What [save_market_data] reads from the entry of a source for one
    column, [data.get(key) if data else None] when it does not raise: the
    entry of the snapshot under [key], and [None] when the source has no
    snapshot or the snapshot has no such entry. *)
Definition bound_field (data : value) (key : string) : value :=
  match data with
  | VDict d => dict_get d key VNone
  | _ => VNone
  end.

(** The record that [get_latest_data] makes of a row. *)
Definition record_of (r : row) : gmap string value := cell_value <$> r.

Definition text_stamp (r : row) : Prop := exists s, created_at r = Text s.

(** [a] does not sort before [b]. *)
Definition not_before (a b : row) : Prop :=
  sql_compare (created_at a) (created_at b) <> Lt.

(** The row carries the text [c] in [created_at]. *)
Definition stamped (c : string) (r : row) : bool :=
  match created_at r with
  | Text s => String.eqb s c
  | _ => false
  end.

(** The time that the four calls of a cycle begun at [t0] take together. *)
Definition work (env : environment) (t0 : Z) : Z :=
  wait env t0 Domestic + wait env t0 UsFutures + wait env t0 GoldSpot + wait env t0 UsdKrw.

Definition cycle_begins (evs : list event) : list Z :=
  omap (fun e => match e with CycleBegin _ t => Some t | _ => None end) evs.

(** Successive instants are at least [gap] apart. *)
Fixpoint spaced (gap : Z) (ts : list Z) : bool :=
  match ts with
  | [] => true
  | a :: rest =>
      match rest with
      | [] => true
      | b :: _ => a + gap <=? b
      end && spaced gap rest
  end.

(** *** Answers of the endpoints *)

(** A chart answer of the exchange-rate endpoint with the rate 1340.5. *)
Definition chart_answer : Clients.response := {|
  Clients.status_code := 200;
  Clients.json_body :=
    Ok (Clients.JObj
          {[ "chart" :=
               Clients.JObj
                 {[ "result" :=
                      Clients.JList
                        [ Clients.JObj
                            {[ "meta" :=
                                 Clients.JObj
                                   {[ "regularMarketPrice" :=
                                        Clients.JFloat (fdiv (float_of_Z 2681) (float_of_Z 2));
                                      "currency" := Clients.JStr "KRW" ]} ]} ];
                    "error" := Clients.JNull ]} ]})
|}.

(** Decimal digits to a number.  [digits_only] is what [float] and [int]
    make of a string of decimal digits, as the concrete answers below carry
    them; it stands for the two conversions on such strings only, and
    refuses every other string, a signed or a decimal number included. *)
Fixpoint digits_value (s : string) (acc : Z) : option Z :=
  match s with
  | EmptyString => Some acc
  | String c rest =>
      let n := Z.of_N (N_of_ascii c) - 48 in
      if (0 <=? n) && (n <=? 9) then digits_value rest (10 * acc + n) else None
  end.

Definition digits_only : Clients.conversions := {|
  Clients.float_of_str s :=
    match s, digits_value s 0 with
    | String _ _, Some z => Ok (float_of_Z z)
    | _, _ => Raise (ValueError ("could not convert string to float: '" +:+ s +:+ "'"))
    end;
  Clients.int_of_str s :=
    match s, digits_value s 0 with
    | String _ _, Some z => Ok z
    | _, _ => Raise (ValueError ("invalid literal for int() with base 10: '" +:+ s +:+ "'"))
    end
|}.

(** A client whose token is good until the instant 90000000000. *)
Definition good_token : Clients.token_state := {|
  Clients.access_token := Clients.JStr "eyJ0eXAiOiJKV1QiLCJhbGciOiJIUzUxMiJ9";
  Clients.token_expire_time := Some 90000000000
|}.

Definition no_token : Clients.token_state := {|
  Clients.access_token := Clients.JNull;
  Clients.token_expire_time := None
|}.

(** A token answer of the broker. *)
Definition token_answer : Clients.response := {|
  Clients.status_code := 200;
  Clients.json_body :=
    Ok (Clients.JObj
          {[ "access_token" := Clients.JStr "eyJ0eXAiOiJKV1QiLCJhbGciOiJIUzUxMiJ9";
             "token_type" := Clients.JStr "Bearer";
             "expires_in" := Clients.JInt 86400 ]})
|}.

(** An answer of the quote endpoint: [rt_cd] "0", a last price of 155000 and
    a best bid and ask. *)
Definition spot_answer : Clients.response := {|
  Clients.status_code := 200;
  Clients.json_body :=
    Ok (Clients.JObj
          {[ "rt_cd" := Clients.JStr "0";
             "msg1" := Clients.JStr "정상처리 되었습니다.";
             "output1" :=
               Clients.JObj
                 {[ "bidp1" := Clients.JStr "154900"; "bidp_rsqn1" := Clients.JStr "12";
                    "askp1" := Clients.JStr "155100"; "askp_rsqn1" := Clients.JStr "7" ]};
             "output2" := Clients.JObj {[ "stck_prpr" := Clients.JStr "155000" ]} ]})
|}.

(** An answer that the broker refuses: status 500 and [rt_cd] "7". *)
Definition refused_answer : Clients.response := {|
  Clients.status_code := 500;
  Clients.json_body :=
    Ok (Clients.JObj
          {[ "rt_cd" := Clients.JStr "7"; "msg1" := Clients.JStr "서비스 오류" ]})
|}.

(** One call of a client at the instant 1000 with the given data answer. *)
Definition call_with (r : result Clients.response) : Clients.io := {|
  Clients.checked_at := 1000;
  Clients.issued_at := 1200;
  Clients.stamp := "2025-06-02T10:00:00.001000+09:00";
  Clients.token_reply := Ok token_answer;
  Clients.token_file := Ok tt;
  Clients.reply := r
|}.

(** A cycle in which the gold spot client, with a good token, receives
    [spot_answer]; the three other sources time out. *)
Definition broker_spot : environment := {|
  isoformat t := "iso " +:+ show_Z t;
  strftime_seconds t := "sec " +:+ show_Z (t / 1000000);
  Collector.get_gold_411060_data := answer timeout 2000000;
  Collector.get_us_gold_futures_data := answer timeout 2000000;
  Collector.get_gd_gold_spot :=
    answer (Ok (fst (Clients.get_gd_gold_spot digits_only good_token
                       (call_with (Ok spot_answer))))) 300000;
  Collector.get_usd_krw_rate := answer timeout 2000000;
  stop_requested _ := false
|}.

(** Every source answers or fails within a quarter of a second, and
    [stop_collection] is called while the loop sleeps. *)
Definition stop_while_asleep : environment := {|
  isoformat t := "iso " +:+ show_Z t;
  strftime_seconds t := "sec " +:+ show_Z (t / 1000000);
  Collector.get_gold_411060_data := answer (Ok (VDict etf_quote)) 250000;
  Collector.get_us_gold_futures_data := answer timeout 100000;
  Collector.get_gd_gold_spot := answer (Ok (VDict all_zero_quote)) 100000;
  Collector.get_usd_krw_rate := answer (Ok (VDict usd_krw_quote)) 100000;
  stop_requested _ := true
|}.

End Facts.

(** * Properties *)

Import Py NavCalculator Sqlite DbManager Collector Props Facts.



(** ** Floats and comparisons with zero *)

Lemma positive_float f :
  SFltb fzero f = true -> SFleb f fzero = false /\ SFeqb f fzero = false.
Proof.
  destruct f as [s | s | | s m e]; try destruct s; cbn; try discriminate; auto.
Qed.

Lemma nonpositive_float f :
  SFleb f fzero = true -> SFltb fzero f = false.
Proof.
  destruct f as [s | s | | s m e]; try destruct s; cbn; try discriminate; auto.
Qed.

(** The multiplier is the float nearest to 0.14. *)
Lemma nav_multiplier_value :
  nav_multiplier init = S754_finite false 5044031582654956 (-55).
Proof. vm_compute. reflexivity. Qed.

(** A price that is absent or not above zero takes the first branch. *)
Lemma calculate_nav_no_price self now p :
  p = VNone \/ le0 p = Ok true ->
  calculate_nav self now p =
    {[ "nav_value" := VInt 0; "gold_spot_price" := VInt 0;
       "calculation_status" := VStr status_no_price; "timestamp" := VStr now ]}.
Proof.
  intros [-> | Hle]; [reflexivity |].
  unfold calculate_nav. rewrite Hle.
  destruct (negb (truthy p)); reflexivity.
Qed.

(** A price above zero that converts to the float [f] takes the second. *)
Lemma calculate_nav_price self now p f text :
  truthy p = true -> le0 p = Ok false ->
  mul_float p (nav_multiplier self) = Ok (fmul f (nav_multiplier self)) ->
  format_comma_0f p = Ok text ->
  calculate_nav self now p =
    {[ "nav_value" := VFloat (round2 (fmul f (nav_multiplier self)));
       "gold_spot_price" := p;
       "calculation_formula" :=
         VStr ("(" +:+ text +:+ " × " +:+ format_int_comma (gold_holding_per_cu self)
               +:+ ") ÷ " +:+ format_int_comma (total_shares self));
       "calculation_status" := VStr status_done;
       "timestamp" := VStr now ]}.
Proof.
  intros Ht Hle Hmul Hfmt. unfold calculate_nav.
  rewrite Ht, Hle, Hmul, Hfmt. reflexivity.
Qed.

(** C4.  For a reference price above zero, a float or an int that converts to
    a float, [calculate_nav] returns [round(p * k, 2)] with [k] the float
    quotient 14000/100000 and the status of a completed calculation; for a
    price that is absent or not above zero it returns 0 with the status of a
    missing price.  155000 gives 21700.00 and 0 gives 0 with that status. *)
Theorem calculate_nav_reference_price :
  (forall now p f,
      gt0 p = Ok true ->
      (p = VFloat f \/ exists z, p = VInt z /\ float_of_int z = Ok f) ->
      calculate_nav init now p !! "nav_value"
        = Some (VFloat (round2 (fmul f (fdiv (float_of_Z 14000) (float_of_Z 100000)))))
      /\ calculate_nav init now p !! "calculation_status" = Some (VStr status_done))
  /\ (forall now p,
      p = VNone \/ le0 p = Ok true ->
      calculate_nav init now p !! "nav_value" = Some (VInt 0)
      /\ calculate_nav init now p !! "calculation_status" = Some (VStr status_no_price))
  /\ (forall now,
      calculate_nav init now (VInt 155000) !! "nav_value" = Some (VFloat (float_of_Z 21700))
      /\ calculate_nav init now (VFloat (float_of_Z 155000)) !! "nav_value"
         = Some (VFloat (float_of_Z 21700))
      /\ calculate_nav init now (VInt 0) !! "nav_value" = Some (VInt 0)
      /\ calculate_nav init now (VInt 0) !! "calculation_status"
         = Some (VStr status_no_price)).
Proof.
  split; [| split].
  - intros now p f Hpos Hp.
    assert (Hcalc : exists text, calculate_nav init now p =
      {[ "nav_value" := VFloat (round2 (fmul f (nav_multiplier init)));
         "gold_spot_price" := p;
         "calculation_formula" :=
           VStr ("(" +:+ text +:+ " × " +:+ format_int_comma (gold_holding_per_cu init)
                 +:+ ") ÷ " +:+ format_int_comma (total_shares init));
         "calculation_status" := VStr status_done;
         "timestamp" := VStr now ]}).
    { destruct Hp as [-> | (z & -> & Hz)].
      - cbn in Hpos. injection Hpos as Hpos.
        destruct (positive_float f Hpos) as [Hle Heq].
        eexists. apply calculate_nav_price; cbn; rewrite ?Hle, ?Heq; reflexivity.
      - cbn in Hpos. injection Hpos as Hpos. apply Z.ltb_lt in Hpos.
        eexists. apply calculate_nav_price; cbn; rewrite ?Hz; cbn; try reflexivity.
        + destruct (Z.eqb_spec z 0); [lia | reflexivity].
        + destruct (Z.leb_spec z 0); [lia | reflexivity]. }
    destruct Hcalc as [text ->]. split; by simplify_map_eq.
  - intros now p Hp. rewrite (calculate_nav_no_price _ _ _ Hp).
    split; by simplify_map_eq.
  - intros now. split; [| split; [| split]]; vm_compute; reflexivity.
Qed.

Lemma calculate_nav_reference_price_witness :
  calculate_nav init "2025-06-02T10:00:00+09:00" (VFloat (float_of_Z 150000)) !! "nav_value"
    = Some (VFloat (float_of_Z 21000))
  /\ calculate_nav init "2025-06-02T10:00:00+09:00" (VFloat (S754_zero true)) !! "nav_value"
    = Some (VInt 0).
Proof.
  split.
  - replace (float_of_Z 21000)
      with (round2 (fmul (float_of_Z 150000) (fdiv (float_of_Z 14000) (float_of_Z 100000))))
      by (vm_compute; reflexivity).
    apply (proj1 calculate_nav_reference_price).
    + vm_compute. reflexivity.
    + left. reflexivity.
  - apply (proj1 (proj2 calculate_nav_reference_price)).
    right. vm_compute. reflexivity.
Defined.

(** ** The calculator and the clock *)

Lemma delete_timestamp_insert (m1 m2 : gmap string value) k v :
  k <> "timestamp" ->
  delete "timestamp" m1 = delete "timestamp" m2 ->
  delete "timestamp" (<[k := v]> m1) = delete "timestamp" (<[k := v]> m2).
Proof.
  intros Hk H. rewrite !(delete_insert_ne _ "timestamp" k) by congruence.
  by rewrite H.
Qed.

Lemma delete_timestamp_singleton (a b : value) :
  delete "timestamp" ({[ "timestamp" := a ]} : gmap string value)
  = delete "timestamp" {[ "timestamp" := b ]}.
Proof. by rewrite !delete_singleton_eq. Qed.

Ltac same_but_timestamp :=
  repeat (apply delete_timestamp_insert; [discriminate |]);
  apply delete_timestamp_singleton.

Lemma calculate_nav_timestamp self now p :
  calculate_nav self now p !! "timestamp" = Some (VStr now).
Proof.
  unfold calculate_nav.
  destruct (if negb (truthy p) then Ok true else le0 p) as [[|] | e]; cbn;
    [| destruct (mul_float p (nav_multiplier self)); cbn;
       [destruct (format_comma_0f p); cbn |] |];
    by simplify_map_eq.
Qed.

Lemma calculate_nav_clock_free self now1 now2 p :
  delete "timestamp" (calculate_nav self now1 p)
  = delete "timestamp" (calculate_nav self now2 p).
Proof.
  unfold calculate_nav.
  destruct (if negb (truthy p) then Ok true else le0 p) as [[|] | e]; cbn;
    [| destruct (mul_float p (nav_multiplier self)); cbn;
       [destruct (format_comma_0f p); cbn |] |];
    same_but_timestamp.
Qed.

Lemma lookup_clock_free (m1 m2 : gmap string value) k :
  k <> "timestamp" ->
  delete "timestamp" m1 = delete "timestamp" m2 -> m1 !! k = m2 !! k.
Proof.
  intros Hk H.
  rewrite <- (lookup_delete_ne m1 "timestamp" k), <- (lookup_delete_ne m2 "timestamp" k)
    by congruence.
  by rewrite H.
Qed.

(** C8, as the code has it.  Two calls of [calculate_nav] with the same
    argument agree on every entry but [timestamp], which holds the reading
    of the clock taken by each call; the calculator's own fields are
    arguments that no method changes.  What the collector keeps of the
    result, the [nav_value] entry, is therefore the same for both calls. *)
Theorem calculate_nav_same_up_to_timestamp self now1 now2 p :
  delete "timestamp" (calculate_nav self now1 p)
    = delete "timestamp" (calculate_nav self now2 p)
  /\ calculate_nav self now1 p !! "timestamp" = Some (VStr now1)
  /\ calculate_nav self now2 p !! "timestamp" = Some (VStr now2)
  /\ format_nav_for_display (calculate_nav self now1 p)
     = format_nav_for_display (calculate_nav self now2 p).
Proof.
  split; [apply calculate_nav_clock_free |].
  split; [apply calculate_nav_timestamp |].
  split; [apply calculate_nav_timestamp |].
  unfold format_nav_for_display, dict_get.
  by rewrite (lookup_clock_free _ _ "nav_value" ltac:(discriminate)
                (calculate_nav_clock_free self now1 now2 p)).
Qed.

(** C8 as stated fails: the same price submitted at two instants gives two
    results that are not equal. *)
Lemma calculate_nav_depends_on_clock :
  calculate_nav init "2025-06-02T10:00:00.000001+09:00" (VInt 155000)
  <> calculate_nav init "2025-06-02T10:00:00.000002+09:00" (VInt 155000).
Proof.
  intros H. apply (f_equal (fun m : gmap string value => m !! "timestamp")) in H.
  rewrite !calculate_nav_timestamp in H. discriminate H.
Qed.

(** ** The database manager *)

Lemma prepare_insert_gold_data db :
  prepare_insert db insert_gold_data =
    Raise (OperationalError
             (match gold_data db with
              | None => "no such table: gold_data"
              | Some _ => "19 values for 20 columns"
              end)).
Proof.
  unfold prepare_insert. destruct (gold_data db); [vm_compute |]; reflexivity.
Qed.

Lemma execute_insert_gold_data db params :
  exists e, execute_insert db insert_gold_data params = Raise e.
Proof.
  unfold execute_insert. rewrite prepare_insert_gold_data. cbn. eauto.
Qed.

(** The INSERT of [save_market_data] is refused whatever the store and the
    arguments. *)
Lemma save_market_data_refused db korean_time timestamp
    domestic_data us_futures_data gold_spot_data nav_data usd_krw_data :
  save_market_data db korean_time timestamp
    domestic_data us_futures_data gold_spot_data nav_data usd_krw_data
  = (false, db).
Proof.
  unfold save_market_data.
  destruct (connect db); cbn; [| reflexivity].
  destruct (insert_parameters _ _ _ _ _ _ _) as [params |]; cbn; [| reflexivity].
  destruct (execute_insert_gold_data db params) as [e ->]. reflexivity.
Qed.

(** C1, on the code.  Whatever the state of the database, a writable one
    included, and whatever the arguments, [save_market_data] returns [False]
    and the table and its count stay as they were: the INSERT names twenty
    columns, [usd_krw_rate] twice, for nineteen values, and sqlite3 refuses
    the statement.  The flag is a value, never an exception. *)
Theorem save_market_data_appends_nothing db korean_time timestamp
    domestic_data us_futures_data gold_spot_data nav_data usd_krw_data :
  let after :=
    save_market_data db korean_time timestamp
      domestic_data us_futures_data gold_spot_data nav_data usd_krw_data in
  fst after = false
  /\ gold_data (snd after) = gold_data db
  /\ get_data_count (snd after) = get_data_count db
  /\ prepare_insert db insert_gold_data
     = Raise (OperationalError
                (match gold_data db with
                 | None => "no such table: gold_data"
                 | Some _ => "19 values for 20 columns"
                 end)).
Proof.
  cbv zeta. rewrite save_market_data_refused. cbn [fst snd].
  repeat split. apply prepare_insert_gold_data.
Qed.

(** With the column named once the same parameters are accepted and one row
    is appended: the refusal comes from the shape of the statement, not from
    the store. *)
Example nineteen_columns_are_accepted :
  (db' <- accepted_insert ;; Ok (get_data_count db')) = Ok 1
  /\ (db' <- accepted_insert ;;
      Ok ((fun r : gmap string value =>
             (r !! "id", r !! "domestic_current_price", r !! "domestic_bid_price_1",
              r !! "us_futures_current_price", r !! "created_at"))
          <$> get_latest_data db' 1))
     = Ok [ (Some (VInt 1), Some (VFloat fzero), Some (VFloat (float_of_Z 21500)),
             Some VNone, Some (VStr "2025-06-02 10:00:00")) ].
Proof. split; vm_compute; reflexivity. Qed.

(** *** Reading the table *)

Lemma insert_desc_length x l : length (insert_desc x l) = S (length l).
Proof.
  induction l as [| y l IH]; cbn; [reflexivity |].
  destruct (sql_compare (created_at x) (created_at y)); cbn; congruence.
Qed.

Lemma order_by_created_at_desc_length rows :
  length (order_by_created_at_desc rows) = length rows.
Proof.
  induction rows as [| x rows IH]; cbn; [reflexivity |].
  rewrite insert_desc_length. congruence.
Qed.

(** A row older than every row of the list goes to its end. *)
Lemma insert_desc_oldest x l :
  Forall (created_before x) l -> insert_desc x l = l ++ [x].
Proof.
  induction 1 as [| y l Hy Hl IH]; cbn; [reflexivity |].
  unfold created_before in Hy. rewrite Hy, IH. reflexivity.
Qed.

Lemma order_by_created_at_desc_increasing rows :
  StronglySorted created_before rows -> order_by_created_at_desc rows = rev rows.
Proof.
  induction 1 as [| x rows Hs IH Hx]; cbn; [reflexivity |].
  rewrite IH. apply insert_desc_oldest, List.Forall_rev, Hx.
Qed.

Lemma bind_limit n :
  0 <= n < 2 ^ 63 -> bind_param 1 (VInt n) = Ok (Integer n).
Proof.
  intros [H0 H1]. cbn [bind_param].
  assert (- 2 ^ 63 <= n) by (assert (0 < 2 ^ 63) by reflexivity; lia).
  destruct (Z.leb_spec (- 2 ^ 63) n); [| lia].
  destruct (Z.ltb_spec n (2 ^ 63)); [reflexivity | lia].
Qed.

Lemma get_latest_data_readable db rows n :
  accessible db = true -> gold_data db = Some rows -> 0 <= n < 2 ^ 63 ->
  get_latest_data db n =
    (fun r : row => cell_value <$> r)
      <$> take (Z.to_nat n) (order_by_created_at_desc rows).
Proof.
  intros Ha Hr Hn. unfold get_latest_data, connect, select_latest.
  rewrite Ha, Hr. cbn [bind]. rewrite (bind_limit n Hn). cbn [bind].
  unfold sql_limit. destruct (Z.ltb_spec n 0); [lia | reflexivity].
Qed.

Lemma insert_desc_perm x l : insert_desc x l ≡ₚ x :: l.
Proof.
  induction l as [| y l IH]; cbn; [reflexivity |].
  destruct (sql_compare (created_at x) (created_at y)); try reflexivity.
  rewrite IH. apply Permutation_swap.
Qed.

Lemma order_by_created_at_desc_perm rows : order_by_created_at_desc rows ≡ₚ rows.
Proof.
  induction rows as [| x rows IH]; cbn; [reflexivity |].
  rewrite insert_desc_perm. by rewrite IH.
Qed.

(** *** Order of the stamps *)

Lemma ascii_compare_trans_ge a b c :
  Ascii.compare a b <> Lt -> Ascii.compare b c <> Lt -> Ascii.compare a c <> Lt.
Proof.
  unfold Ascii.compare. rewrite !N.compare_lt_iff. lia.
Qed.

Lemma string_compare_trans_ge s : forall t u,
  String.compare s t <> Lt -> String.compare t u <> Lt -> String.compare s u <> Lt.
Proof.
  induction s as [| a s IH]; intros [| b t] [| c u]; cbn; try congruence.
  unfold Ascii.compare.
  destruct (N.compare_spec (N_of_ascii a) (N_of_ascii b)) as [Hab | Hab | Hab];
    destruct (N.compare_spec (N_of_ascii b) (N_of_ascii c)) as [Hbc | Hbc | Hbc];
    try congruence;
    destruct (N.compare_spec (N_of_ascii a) (N_of_ascii c)) as [Hac | Hac | Hac];
    try congruence; try lia.
  apply IH.
Qed.

Lemma not_before_trans a b c :
  text_stamp a -> text_stamp b -> text_stamp c ->
  not_before a b -> not_before b c -> not_before a c.
Proof.
  unfold text_stamp, not_before. intros [s ->] [t ->] [u ->]. cbn.
  apply string_compare_trans_ge.
Qed.

Lemma insert_desc_sorted x l :
  text_stamp x -> Forall text_stamp l ->
  StronglySorted not_before l -> StronglySorted not_before (insert_desc x l).
Proof.
  intros Hx Hl Hs. induction Hs as [| y l Hs IH Hy]; cbn.
  - repeat constructor.
  - apply Forall_cons in Hl as [Hty Hl].
    destruct (sql_compare (created_at x) (created_at y)) eqn:E.
    + constructor; [by constructor |]. constructor.
      * unfold not_before. rewrite E. discriminate.
      * apply Forall_forall. intros z Hz.
        rewrite Forall_forall in Hy, Hl.
        apply (not_before_trans x y z); auto.
        unfold not_before. rewrite E. discriminate.
    + constructor; [auto |].
      rewrite insert_desc_perm. constructor; [| exact Hy].
      unfold not_before. destruct Hx as [s Hsx], Hty as [t Hst].
      rewrite Hsx, Hst in *. cbn in *.
      rewrite String.compare_antisym, E. discriminate.
    + constructor; [by constructor |]. constructor.
      * unfold not_before. rewrite E. discriminate.
      * apply Forall_forall. intros z Hz.
        rewrite Forall_forall in Hy, Hl.
        apply (not_before_trans x y z); auto.
        unfold not_before. rewrite E. discriminate.
Qed.

Lemma order_by_created_at_desc_sorted rows :
  Forall text_stamp rows -> StronglySorted not_before (order_by_created_at_desc rows).
Proof.
  induction rows as [| x rows IH]; cbn; intros H; [constructor |].
  apply Forall_cons in H as [Hx H].
  apply insert_desc_sorted; auto.
  by rewrite order_by_created_at_desc_perm.
Qed.

(** Rows that carry the same stamp keep the order they have in the table. *)
Lemma insert_desc_stamped c x l :
  List.filter (stamped c) (insert_desc x l) = List.filter (stamped c) (x :: l).
Proof.
  induction l as [| y l IH]; [reflexivity |].
  cbn [insert_desc].
  destruct (sql_compare (created_at x) (created_at y)) eqn:E; try reflexivity.
  cbn [List.filter] in *. rewrite IH.
  destruct (stamped c x) eqn:Hx; [| reflexivity].
  destruct (stamped c y) eqn:Hy; [| reflexivity].
  exfalso. unfold stamped in Hx, Hy.
  destruct (created_at x) as [| | | s]; try discriminate Hx.
  destruct (created_at y) as [| | | t]; try discriminate Hy.
  apply String.eqb_eq in Hx, Hy. subst s t. cbn in E.
  pose proof (String.compare_antisym c c) as Hc. rewrite E in Hc. discriminate Hc.
Qed.

Lemma order_by_created_at_desc_stamped c rows :
  List.filter (stamped c) (order_by_created_at_desc rows) = List.filter (stamped c) rows.
Proof.
  induction rows as [| x rows IH]; [reflexivity |].
  cbn [order_by_created_at_desc]. rewrite insert_desc_stamped.
  cbn [List.filter]. by rewrite IH.
Qed.

(** C6, as the code has it.  For [n] in the range of an SQLite integer and
    not negative, [get_latest_data(n)] on a readable store returns
    [min(n, count())] records.  When every row carries a text in
    [created_at], they are the first [n] rows of the table put in descending
    order of [created_at]: the list they are taken from holds the rows of
    the table, no row of it comes before a row with a later stamp, and rows
    with the same stamp stand in it as they stand in the table.  When
    [created_at] strictly increases along the order of appending, these are
    the last [n] appended records, newest first. *)
Theorem get_latest_data_by_created_at db rows n :
  accessible db = true -> gold_data db = Some rows -> 0 <= n < 2 ^ 63 ->
  get_data_count db = Z.of_nat (length rows)
  /\ length (get_latest_data db n) = Nat.min (Z.to_nat n) (length rows)
  /\ (Forall text_stamp rows ->
      exists sorted,
        get_latest_data db n = record_of <$> take (Z.to_nat n) sorted
        /\ sorted ≡ₚ rows
        /\ StronglySorted not_before sorted
        /\ forall c, List.filter (stamped c) sorted = List.filter (stamped c) rows)
  /\ (StronglySorted created_before rows -> get_latest_data db n = newest_first db n).
Proof.
  intros Ha Hr Hn. split; [| split; [| split]].
  - unfold get_data_count, connect, select_count. rewrite Ha, Hr. reflexivity.
  - rewrite (get_latest_data_readable db rows n Ha Hr Hn).
    rewrite length_fmap, length_take, order_by_created_at_desc_length. reflexivity.
  - intros Ht. exists (order_by_created_at_desc rows).
    split; [exact (get_latest_data_readable db rows n Ha Hr Hn) |].
    split; [apply order_by_created_at_desc_perm |].
    split; [by apply order_by_created_at_desc_sorted |].
    intros c. apply order_by_created_at_desc_stamped.
  - intros Hs. rewrite (get_latest_data_readable db rows n Ha Hr Hn).
    unfold newest_first. rewrite Hr. cbn [default].
    by rewrite (order_by_created_at_desc_increasing rows Hs).
Qed.

Lemma get_latest_data_by_created_at_witness :
  get_data_count one_per_second = 2
  /\ length (get_latest_data one_per_second 1) = 1%nat
  /\ (exists sorted,
        get_latest_data one_per_second 1 = record_of <$> take (Z.to_nat 1) sorted
        /\ sorted ≡ₚ [first_record; fourth_record]
        /\ StronglySorted not_before sorted
        /\ forall c, List.filter (stamped c) sorted
                     = List.filter (stamped c) [first_record; fourth_record])
  /\ get_latest_data one_per_second 1 = newest_first one_per_second 1.
Proof.
  destruct (get_latest_data_by_created_at one_per_second
              [first_record; fourth_record] 1) as (Hc & Hl & Ho & Hs).
  - reflexivity.
  - reflexivity.
  - split; [discriminate | reflexivity].
  - split; [exact Hc |]. split; [exact Hl |]. split.
    + apply Ho. repeat constructor; eexists; reflexivity.
    + apply Hs. repeat constructor.
Defined.

(** C6 as stated fails: the record appended last carries the earlier
    [created_at], and [get_latest_data(1)] returns the other one. *)
Lemma latest_is_not_last_appended :
  get_latest_data clock_set_back 1 <> newest_first clock_set_back 1.
Proof.
  intros H.
  apply (f_equal (fun l : list (gmap string value) =>
                    (fun r : gmap string value => r !! "id") <$> l)) in H.
  vm_compute in H. discriminate H.
Qed.

(** Two records stamped within the same second come back in the order in
    which they were appended. *)
Example same_second_oldest_first :
  (fun r : gmap string value => r !! "id") <$> get_latest_data same_second 2
  = [Some (VInt 1); Some (VInt 2)].
Proof. vm_compute. reflexivity. Qed.

(** C10.  If the file cannot be opened or has no [gold_data] table, or if
    the limit does not fit an SQLite integer, the read methods return 0 and
    the empty list, which is what they return for a store with no rows. *)
Theorem failed_reads_look_empty db limit blank :
  accessible db = false \/ gold_data db = None ->
  empty_store blank ->
  get_data_count db = 0
  /\ get_latest_data db limit = []
  /\ get_data_count db = get_data_count blank
  /\ get_latest_data db limit = get_latest_data blank limit.
Proof.
  intros Hfail [Ha Hr].
  assert (Hc : get_data_count db = 0).
  { unfold get_data_count, connect, select_count.
    destruct Hfail as [H | H]; rewrite H; [reflexivity |].
    destruct (accessible db); reflexivity. }
  assert (Hl : get_latest_data db limit = []).
  { unfold get_latest_data, connect, select_latest.
    destruct Hfail as [H | H]; rewrite H; [reflexivity |].
    destruct (accessible db); reflexivity. }
  assert (Hc' : get_data_count blank = 0).
  { unfold get_data_count, connect, select_count. rewrite Ha, Hr. reflexivity. }
  assert (Hl' : get_latest_data blank limit = []).
  { unfold get_latest_data, connect, select_latest. rewrite Ha, Hr. cbn [bind].
    destruct (bind_param 1 (VInt limit)) as [[| k | f | s] |]; cbn; try reflexivity.
    unfold sql_limit. destruct (k <? 0); [reflexivity |]. by rewrite take_nil. }
  rewrite Hc, Hl, Hc', Hl'. auto.
Qed.

Lemma failed_reads_look_empty_witness :
  get_data_count unreadable = 0
  /\ get_latest_data unreadable 10 = []
  /\ get_data_count unreadable = get_data_count fresh_database
  /\ get_latest_data unreadable 10 = get_latest_data fresh_database 10.
Proof.
  apply (failed_reads_look_empty unreadable 10 fresh_database).
  - left. reflexivity.
  - split; reflexivity.
Defined.

(** A limit outside the range of an SQLite integer fails too. *)
Lemma get_latest_data_limit_out_of_range db limit :
  ~ (- 2 ^ 63 <= limit < 2 ^ 63) -> get_latest_data db limit = [].
Proof.
  intros Hn. unfold get_latest_data, select_latest.
  destruct (connect db); cbn [bind]; [| reflexivity].
  destruct (gold_data db); [| reflexivity].
  cbn [bind_param].
  destruct (Z.leb_spec (- 2 ^ 63) limit); destruct (Z.ltb_spec limit (2 ^ 63));
    cbn; try reflexivity.
  lia.
Qed.

(** ** The collector *)

(** One cycle of collection, written out: the four calls follow one
    another, each answer is checked on its own, and the state changes by the
    time spent and the eight entries of the log. *)
Lemma collect_all_data_unfold env st :
  let t0 := clock st in
  let entry s := keep s (outcome (fetched env t0 s)) in
  collect_all_data env st =
    ({[ "domestic" := entry Domestic;
        "us_futures" := entry UsFutures;
        "gold_spot" := entry GoldSpot;
        "usd_krw" := entry UsdKrw;
        "nav" := VDict (format_nav_for_display
                   (calculate_nav_with_all_data nav_calculator
                      (isoformat env (ends env t0 UsdKrw))
                      {[ "domestic" := entry Domestic;
                         "us_futures" := entry UsFutures;
                         "gold_spot" := entry GoldSpot;
                         "usd_krw" := entry UsdKrw ]}));
        "timestamp" := VStr (isoformat env t0) ]},
     {| clock := ends env t0 UsdKrw;
        db := db st;
        running := running st;
        trace := trace st ++
          [ FetchBegin Domestic (begins env t0 Domestic);
            FetchEnd Domestic (ends env t0 Domestic);
            FetchBegin UsFutures (begins env t0 UsFutures);
            FetchEnd UsFutures (ends env t0 UsFutures);
            FetchBegin GoldSpot (begins env t0 GoldSpot);
            FetchEnd GoldSpot (ends env t0 GoldSpot);
            FetchBegin UsdKrw (begins env t0 UsdKrw);
            FetchEnd UsdKrw (ends env t0 UsdKrw) ] |}).
Proof.
  cbv zeta. unfold collect_all_data, seq, now, call_client, ret. cbn [clock db running trace].
  f_equal. f_equal. rewrite <- !app_assoc. reflexivity.
Qed.

Lemma collect_all_data_entry env st s :
  fst (collect_all_data env st) !! key_of s
  = Some (keep s (outcome (fetched env (clock st) s))).
Proof.
  rewrite collect_all_data_unfold. cbn [fst].
  destruct s; by simplify_map_eq.
Qed.

Lemma collect_all_data_nav env st :
  exists v, fst (collect_all_data env st) !! "nav" = Some (VDict {[ "nav_value" := v ]}).
Proof.
  rewrite collect_all_data_unfold. cbn [fst]. unfold format_nav_for_display.
  eexists. by simplify_map_eq.
Qed.

(** The test of [collect_and_save_once] holds in every cycle: the [nav]
    entry is a dict with one key, and such a dict is true. *)
Lemma any_data_always env st : any_data (fst (collect_all_data env st)) = true.
Proof.
  destruct (collect_all_data_nav env st) as [v Hv].
  unfold any_data, dict_get. rewrite Hv. cbn.
  rewrite map_size_singleton. cbn. by rewrite !orb_true_r.
Qed.

Lemma collect_and_save_once_unfold env st :
  let st1 := snd (collect_all_data env st) in
  collect_and_save_once env st =
    (fst (collect_all_data env st),
     {| clock := clock st1; db := db st1; running := running st1;
        trace := trace st1 ++ [SaveMarketData false] |}).
Proof.
  cbv zeta. unfold collect_and_save_once, seq.
  destruct (collect_all_data env st) as [collected st1] eqn:E.
  assert (Ha : any_data collected = true)
    by (change collected with (fst (collected, st1)); rewrite <- E; apply any_data_always).
  rewrite Ha. unfold save, ret. rewrite save_market_data_refused. reflexivity.
Qed.

(** *** Which snapshots are kept *)

Lemma gt0_number v : is_number v = true -> gt0 v = Ok (positive v).
Proof. destruct v; cbn; try discriminate; reflexivity. Qed.

Lemma keep_domestic_numbers d :
  priced_in_numbers d = true ->
  keep_domestic (Ok (VDict d))
  = if any_price_positive Domestic d then VDict d else VNone.
Proof.
  unfold priced_in_numbers, any_price_positive, keep_domestic.
  intros H. apply andb_prop in H as [H Ha]. apply andb_prop in H as [Hc Hb].
  cbn [bind bid_key ask_key].
  rewrite (gt0_number _ Hc), (gt0_number _ Hb), (gt0_number _ Ha). cbn [bind].
  destruct (positive (dict_get d "current_price" (VInt 0))); cbn; [reflexivity |].
  destruct (positive (dict_get d "bid_price_1" (VInt 0))); cbn; reflexivity.
Qed.

Lemma keep_current_price_dict d :
  keep_current_price (Ok (VDict d))
  = if positive (dict_get d "current_price" (VInt 0)) then VDict d else VNone.
Proof.
  unfold keep_current_price, positive. cbn [bind].
  destruct (gt0 (dict_get d "current_price" (VInt 0))) as [[|] |]; reflexivity.
Qed.

(** An answer that is an exception or is not a dict is dropped. *)
Lemma keep_failure s r :
  (forall d, r <> Ok (VDict d)) -> keep s r = VNone.
Proof.
  intros H. destruct r as [[| z | f | t | d] | e];
    try (destruct s; reflexivity).
  destruct (H d). reflexivity.
Qed.

(** C3, as the code has it.  The snapshot that a client returns enters the
    aggregate if and only if it passes the check written for its source: for
    the ETF quote, whose prices are numbers, one of current price, best bid
    and best ask is above zero; for the US future, the gold spot and the
    exchange rate, the current price is above zero.  A snapshot that fails
    the check is replaced by [None]. *)
Theorem snapshot_kept_by_source_rule env st s d :
  outcome (fetched env (clock st) s) = Ok (VDict d) ->
  (s = Domestic -> priced_in_numbers d = true) ->
  fst (collect_all_data env st) !! key_of s
  = Some (if valid_snapshot s d then VDict d else VNone).
Proof.
  intros Hr Hn. rewrite collect_all_data_entry, Hr. f_equal.
  destruct s; cbn [keep valid_snapshot];
    [apply keep_domestic_numbers; auto | apply keep_current_price_dict ..].
Qed.

Lemma snapshot_kept_by_source_rule_witness :
  fst (collect_all_data two_of_four idle_state) !! "domestic" = Some (VDict etf_quote)
  /\ fst (collect_all_data two_of_four idle_state) !! "gold_spot" = Some VNone.
Proof.
  split.
  - apply (snapshot_kept_by_source_rule two_of_four idle_state Domestic etf_quote).
    + reflexivity.
    + intros _. vm_compute. reflexivity.
  - apply (snapshot_kept_by_source_rule two_of_four idle_state GoldSpot all_zero_quote).
    + reflexivity.
    + discriminate.
Defined.

(** C3 as stated fails: a US futures quote whose best bid and best ask are
    above zero is dropped when its current price is zero. *)
Lemma futures_quote_with_bid_dropped :
  outcome (fetched futures_bid_only (clock idle_state) UsFutures)
    = Ok (VDict futures_without_last_price)
  /\ any_price_positive UsFutures futures_without_last_price = true
  /\ fst (collect_all_data futures_bid_only idle_state) !! "us_futures" = Some VNone.
Proof.
  split; [reflexivity |]. split; [vm_compute; reflexivity |].
  etransitivity;
    [exact (collect_all_data_entry futures_bid_only idle_state UsFutures) |].
  vm_compute. reflexivity.
Qed.

(** *** Cycles that have nothing, cycles that have something *)

(** C2, on the code.  [save_market_data] is called in every cycle, a cycle
    in which the four sources time out and the metric is unavailable
    included: the [nav] entry of the aggregate is the dict
    [{"nav_value": 0}], which counts as data.  The store is unchanged only
    because the INSERT is refused. *)
Theorem empty_cycle_is_saved :
  (forall env st,
      any_data (fst (collect_all_data env st)) = true
      /\ trace (snd (collect_and_save_once env st))
         = trace (snd (collect_all_data env st)) ++ [SaveMarketData false])
  /\ (forall s, empty_cycle !! key_of s = Some VNone)
  /\ empty_cycle !! "nav" = Some (VDict {[ "nav_value" := VInt 0 ]})
  /\ empty_cycle_metric !! "calculation_status" = Some (VStr status_no_price)
  /\ In (SaveMarketData false)
        (trace (snd (collect_and_save_once all_sources_fail idle_state))).
Proof.
  split.
  { intros env st. split; [apply any_data_always |].
    rewrite collect_and_save_once_unfold. reflexivity. }
  split.
  { intros s. unfold empty_cycle. rewrite collect_all_data_entry.
    destruct s; reflexivity. }
  split; [vm_compute; reflexivity |].
  split; [vm_compute; reflexivity |].
  rewrite collect_and_save_once_unfold. cbn [snd trace].
  apply in_or_app. right. left. reflexivity.
Qed.

(** C7, on the code.  The entry of each source is the check of that
    source's own answer, whatever the other clients do, and
    [collect_all_data] always returns.  In the scenario in which source 2
    times out and source 3 answers with zero prices the aggregate holds the
    snapshots of sources 1 and 4 and [None] for the two others; the cycle
    then calls [save_market_data], which returns [False], and the store is
    as it was before the cycle. *)
Theorem two_of_four_collected_not_persisted :
  (forall env st s,
      fst (collect_all_data env st) !! key_of s
      = Some (keep s (outcome (fetched env (clock st) s))))
  /\ (forall st,
      let after := collect_and_save_once two_of_four st in
      fst after !! "domestic" = Some (VDict etf_quote)
      /\ fst after !! "us_futures" = Some VNone
      /\ fst after !! "gold_spot" = Some VNone
      /\ fst after !! "usd_krw" = Some (VDict usd_krw_quote)
      /\ last (trace (snd after)) = Some (SaveMarketData false)
      /\ db (snd after) = db st
      /\ get_data_count (db (snd after)) = get_data_count (db st)).
Proof.
  split; [apply collect_all_data_entry |].
  intros st. cbv zeta. rewrite collect_and_save_once_unfold. cbn [fst snd db trace].
  rewrite !(collect_all_data_unfold two_of_four st). cbn [fst snd db trace].
  repeat split; try (by simplify_map_eq).
  by rewrite last_snoc.
Qed.

(** *** The order of the calls and of the cycles *)

Lemma wait_nonneg env t0 s : 0 <= wait env t0 s.
Proof. unfold wait. lia. Qed.

Lemma collect_all_data_effect env st :
  snd (collect_all_data env st) =
    {| clock := ends env (clock st) UsdKrw; db := db st; running := running st;
       trace := trace st ++ fetch_events env (clock st) |}.
Proof. rewrite collect_all_data_unfold. reflexivity. Qed.

Lemma events_since_app st st' evs :
  trace st' = trace st ++ evs -> events_since st st' = evs.
Proof. intros H. unfold events_since. rewrite H. apply drop_app_length. Qed.

Lemma some_overlap_fetch_events env t0 : some_overlap false (fetch_events env t0) = false.
Proof. reflexivity. Qed.

Lemma cycles_step env fuel count st :
  running st = true ->
  cycles env (S fuel) count st
  = cycles env fuel (count + 1) (after_cycle env (count + 1) st).
Proof.
  intros Hr. cbn [cycles]. rewrite Hr. unfold seq at 1 2.
  unfold now at 1, log at 1.
  unfold seq at 1. rewrite collect_and_save_once_unfold, collect_all_data_effect.
  cbn [clock db running trace seq now log].
  unfold seq, now, log. cbn [clock db running trace].
  unfold after_cycle. cbv zeta.
  destruct (0 <? Z.max 0 (period - (ends env (clock st) UsdKrw - clock st))) eqn:E;
    unfold sleep, ret; cbn [clock db running trace];
    do 2 f_equal; unfold fetch_events; rewrite <- !app_assoc; reflexivity.
Qed.

Lemma cycles_stopped env fuel count st :
  running st = false -> cycles env fuel count st = (count, st).
Proof. intros Hr. destruct fuel; cbn [cycles]; [reflexivity |]. by rewrite Hr. Qed.

Lemma after_cycle_clock env count st :
  clock st <= ends env (clock st) UsdKrw <= clock (after_cycle env count st).
Proof.
  unfold after_cycle, ends, begins. cbn [clock].
  pose proof (wait_nonneg env (clock st) Domestic).
  pose proof (wait_nonneg env (clock st) UsFutures).
  pose proof (wait_nonneg env (clock st) GoldSpot).
  pose proof (wait_nonneg env (clock st) UsdKrw).
  destruct (Z.ltb_spec 0 (Z.max 0 (period - (clock st + wait env (clock st) Domestic
      + wait env (clock st) UsFutures + wait env (clock st) GoldSpot
      + wait env (clock st) UsdKrw - clock st)))); lia.
Qed.

Lemma cycles_log env fuel :
  forall count st, exists evs,
    trace (snd (cycles env fuel count st)) = trace st ++ evs
    /\ (forall last, last <= clock st -> one_cycle_at_a_time None last evs = true).
Proof.
  induction fuel as [| fuel IH]; intros count st.
  - exists []. split; [cbn; by rewrite app_nil_r | reflexivity].
  - destruct (running st) eqn:Hr.
    + rewrite (cycles_step env fuel count st Hr).
      destruct (IH (count + 1) (after_cycle env (count + 1) st)) as (evs & Ht & Hc).
      pose proof (after_cycle_clock env (count + 1) st) as [H0 H1].
      exists ([CycleBegin (count + 1) (clock st)] ++ fetch_events env (clock st)
              ++ [SaveMarketData false; CycleEnd (count + 1) (ends env (clock st) UsdKrw)]
              ++ evs).
      split.
      * rewrite Ht. unfold after_cycle. cbn [trace]. rewrite <- !app_assoc. reflexivity.
      * intros last Hl. cbn.
        destruct (Z.leb_spec last (clock st)); [| lia].
        rewrite Z.eqb_refl.
        destruct (Z.leb_spec (clock st) (ends env (clock st) UsdKrw)); [| lia].
        cbn. apply Hc. exact H1.
    + rewrite (cycles_stopped env (S fuel) count st Hr).
      exists []. split; [cbn; by rewrite app_nil_r | reflexivity].
Qed.

(** When nobody asks for a stop, every iteration allowed by the fuel is
    run: no outcome of a cycle, a refused INSERT included, ends the loop. *)
Lemma cycles_count env fuel :
  (forall t, stop_requested env t = false) ->
  forall count st, running st = true ->
    fst (cycles env fuel count st) = count + Z.of_nat fuel.
Proof.
  intros Hstop. induction fuel as [| fuel IH]; intros count st Hr.
  - cbn. lia.
  - rewrite (cycles_step env fuel count st Hr), IH; [lia |].
    unfold after_cycle. cbn [running]. rewrite Hr, Hstop.
    by destruct (0 <? _).
Qed.

Lemma start_real_time_collection_count env fuel st :
  (forall t, stop_requested env t = false) ->
  fst (start_real_time_collection env fuel st) = Z.of_nat fuel.
Proof.
  intros Hstop. unfold start_real_time_collection, seq, set_running, ret.
  destruct (cycles env fuel 0 _) as [count st'] eqn:E. cbn [fst].
  change count with (fst (count, st')). rewrite <- E.
  rewrite (cycles_count env fuel Hstop); [lia | reflexivity].
Qed.

(** C9, as the code has it.  In a cycle the four clients are called one
    after the other, in the order ETF, US future, gold spot, exchange rate:
    each call begins at the instant at which the one before it ended, no two
    calls are open together, and the cycle lasts the sum of the four waits.
    In the loop a cycle begins only after the one before it has ended. *)
Theorem fetches_and_cycles_in_sequence :
  (forall env st,
      let t0 := clock st in
      events_since st (snd (collect_all_data env st)) = fetch_events env t0
      /\ begins env t0 Domestic = t0
      /\ begins env t0 UsFutures = ends env t0 Domestic
      /\ begins env t0 GoldSpot = ends env t0 UsFutures
      /\ begins env t0 UsdKrw = ends env t0 GoldSpot
      /\ some_overlap false (fetch_events env t0) = false
      /\ clock (snd (collect_all_data env st))
         = t0 + wait env t0 Domestic + wait env t0 UsFutures
              + wait env t0 GoldSpot + wait env t0 UsdKrw)
  /\ (forall env fuel st,
      one_cycle_at_a_time None (clock st)
        (events_since st (snd (start_real_time_collection env fuel st))) = true).
Proof.
  split.
  - intros env st. cbv zeta. rewrite collect_all_data_effect. cbn [clock trace].
    split; [by apply events_since_app |].
    unfold ends, begins. repeat split.
  - intros env fuel st.
    unfold start_real_time_collection, seq, set_running, ret.
    destruct (cycles_log env fuel 0
                {| clock := clock st; db := db st; running := true; trace := trace st |})
      as (evs & Ht & Hc).
    destruct (cycles env fuel 0 _) as [count st'] eqn:E. cbn [snd trace] in *.
    rewrite (events_since_app st _ evs) by exact Ht.
    apply Hc. cbn. lia.
Qed.

(** C9 as stated fails.  With a first client that takes five seconds and
    three others that take a tenth of a second each, no two calls are ever
    open together, and the last call, begun at 5.2 s, ends at 5.3 s. *)
Lemma slow_source_delays_the_others :
  events_since idle_state (snd (collect_all_data slow_first_source idle_state))
  = [ FetchBegin Domestic 0; FetchEnd Domestic 5000000;
      FetchBegin UsFutures 5000000; FetchEnd UsFutures 5100000;
      FetchBegin GoldSpot 5100000; FetchEnd GoldSpot 5200000;
      FetchBegin UsdKrw 5200000; FetchEnd UsdKrw 5300000 ]
  /\ ~ fetches_concurrent
        (events_since idle_state (snd (collect_all_data slow_first_source idle_state))).
Proof.
  assert (H : events_since idle_state (snd (collect_all_data slow_first_source idle_state))
              = fetch_events slow_first_source 0).
  { apply events_since_app. rewrite collect_all_data_effect. reflexivity. }
  rewrite H. split; [reflexivity |].
  unfold fetches_concurrent. rewrite some_overlap_fetch_events. discriminate.
Qed.

(** Three cycles against a store that refuses every INSERT. *)
Example three_cycles_despite_refusals :
  fst (start_real_time_collection two_of_four 3 idle_state) = 3
  /\ get_data_count (db (snd (start_real_time_collection two_of_four 3 idle_state))) = 0
  /\ List.filter is_refused_save
       (trace (snd (start_real_time_collection two_of_four 3 idle_state)))
     = [SaveMarketData false; SaveMarketData false; SaveMarketData false].
Proof. split; [| split]; vm_compute; reflexivity. Qed.

(** * Further properties *)

(** ** The calculator on the whole market data *)

Lemma calculate_nav_no_data_sources self now p :
  calculate_nav self now p !! "data_sources" = None.
Proof.
  unfold calculate_nav.
  destruct (if negb (truthy p) then Ok true else le0 p) as [[|] | e]; cbn;
    [| destruct (mul_float p (nav_multiplier self)); cbn;
       [destruct (format_comma_0f p); cbn |] |];
    by simplify_map_eq.
Qed.

Lemma source_price_none_or_dict market_data key :
  none_or_dict (dict_get market_data key VNone) = true ->
  exists v, source_price market_data key = Ok v.
Proof.
  unfold source_price, dict_get.
  destruct (market_data !! key) as [[| z | f | s | d] |]; cbn; try discriminate; intros _.
  - eauto.
  - destruct (negb _); eauto.
  - eauto.
Qed.

Lemma calculate_nav_with_all_data_decompose self now market_data :
  Forall (fun key => none_or_dict (dict_get market_data key VNone) = true) other_sources ->
  delete "data_sources" (calculate_nav_with_all_data self now market_data)
  = calculate_nav self now (gold_spot_price_of market_data)
  /\ (calculate_nav_with_all_data self now market_data !! "data_sources" = None
      <-> has_gold_spot market_data = false).
Proof.
  intros H. unfold other_sources in H.
  apply Forall_cons in H as [Hd H]. apply Forall_cons in H as [Hu H].
  apply Forall_cons in H as [Hk _].
  unfold calculate_nav_with_all_data, gold_spot_price_of, has_gold_spot.
  destruct (dict_get market_data "gold_spot" VNone) as [| z | f | s | d];
    try (split; [apply delete_id, calculate_nav_no_data_sources
                | split; [reflexivity | intros _; apply calculate_nav_no_data_sources]]).
  destruct (truthy (VDict d)) eqn:Ht; cbn [negb].
  - destruct (source_price_none_or_dict _ _ Hd) as [vd ->].
    destruct (source_price_none_or_dict _ _ Hu) as [vu ->].
    destruct (source_price_none_or_dict _ _ Hk) as [vk ->]. cbn [bind].
    split.
    + rewrite delete_insert_eq. apply delete_id, calculate_nav_no_data_sources.
    + rewrite lookup_insert_eq. split; discriminate.
  - split; [apply delete_id, calculate_nav_no_data_sources
           | split; [reflexivity | intros _; apply calculate_nav_no_data_sources]].
Qed.

(** X1.  When the entries of the three other sources are [None] or dicts,
    as the collector builds them, [calculate_nav_with_all_data] is
    [calculate_nav] of the gold spot price with one more entry,
    [data_sources]: the metric, its status and the price it was computed
    from are those of [calculate_nav], whatever the other sources hold.  The
    price is 0 when the gold spot entry is missing, [None], an empty dict or
    a dict without [current_price]. *)
Theorem nav_from_gold_spot_alone self now market_data :
  Forall (fun key => none_or_dict (dict_get market_data key VNone) = true) other_sources ->
  delete "data_sources" (calculate_nav_with_all_data self now market_data)
  = calculate_nav self now (gold_spot_price_of market_data)
  /\ (calculate_nav_with_all_data self now market_data !! "data_sources" = None
      <-> has_gold_spot market_data = false).
Proof. apply calculate_nav_with_all_data_decompose. Qed.

Lemma nav_from_gold_spot_alone_witness :
  delete "data_sources"
    (calculate_nav_with_all_data init "2025-06-02T10:00:00+09:00"
       {[ "domestic" := VDict etf_quote; "us_futures" := VNone;
          "gold_spot" := VDict {[ "current_price" := VFloat (float_of_Z 155000) ]};
          "usd_krw" := VDict usd_krw_quote ]})
  = calculate_nav init "2025-06-02T10:00:00+09:00" (VFloat (float_of_Z 155000)).
Proof.
  refine (proj1 (nav_from_gold_spot_alone init "2025-06-02T10:00:00+09:00"
           {[ "domestic" := VDict etf_quote; "us_futures" := VNone;
              "gold_spot" := VDict {[ "current_price" := VFloat (float_of_Z 155000) ]};
              "usd_krw" := VDict usd_krw_quote ]} _)).
  repeat constructor.
Defined.

Lemma source_price_not_dict market_data key v :
  dict_get market_data key VNone = v -> truthy v = true -> isinstance_dict v = false ->
  exists e, source_price market_data key = Raise e.
Proof.
  intros Hv Ht Hd. unfold source_price.
  rewrite Hv, Ht.
  assert (Hv' : dict_get market_data key (VDict ∅) = v).
  { unfold dict_get in *. destruct (market_data !! key); [exact Hv |].
    cbn in Hv. subst v. discriminate Ht. }
  rewrite Hv'. destruct v; try discriminate; eauto.
Qed.

(** X2.  An entry of another source that is true and is not a dict, such as
    the error text of a client, makes [calculate_nav_with_all_data] return
    the result for a missing price, whatever the gold spot entry holds. *)
Theorem malformed_sibling_voids_nav self now market_data key v :
  In key other_sources ->
  dict_get market_data key VNone = v -> truthy v = true -> isinstance_dict v = false ->
  calculate_nav_with_all_data self now market_data = calculate_nav self now (VInt 0).
Proof.
  intros Hk Hv Ht Hd.
  destruct (source_price_not_dict market_data key v Hv Ht Hd) as [e He].
  unfold calculate_nav_with_all_data.
  destruct (dict_get market_data "gold_spot" VNone) as [| z | f | s | d]; try reflexivity.
  destruct (negb (truthy (VDict d))); [reflexivity |].
  unfold other_sources in Hk. cbn in Hk.
  destruct Hk as [<- | [<- | [<- | []]]].
  - rewrite He. reflexivity.
  - destruct (source_price market_data "domestic"); cbn [bind]; [| reflexivity].
    rewrite He. reflexivity.
  - destruct (source_price market_data "domestic"); cbn [bind]; [| reflexivity].
    destruct (source_price market_data "us_futures"); cbn [bind]; [| reflexivity].
    rewrite He. reflexivity.
Qed.

Lemma malformed_sibling_voids_nav_witness :
  calculate_nav_with_all_data init "2025-06-02T10:00:00+09:00"
    {[ "domestic" := VStr "토큰이 만료되었습니다. 토큰을 재발급하세요.";
       "gold_spot" := VDict {[ "current_price" := VFloat (float_of_Z 155000) ]} ]}
  = calculate_nav init "2025-06-02T10:00:00+09:00" (VInt 0).
Proof.
  apply (malformed_sibling_voids_nav init "2025-06-02T10:00:00+09:00" _ "domestic"
           (VStr "토큰이 만료되었습니다. 토큰을 재발급하세요.")).
  - left. reflexivity.
  - reflexivity.
  - reflexivity.
  - reflexivity.
Defined.

(** ** The table and its readers *)

(** X3.  [init_database] never loses a row and may be run again at no cost:
    a table that exists is kept with its rows, a missing one is created
    empty when the file can be opened and written and stays missing
    otherwise, and a second run changes nothing.  After it, on a file that
    can be opened and written, the count is the number of rows there were. *)
Theorem init_database_keeps_rows db :
  (forall rows, gold_data db = Some rows -> gold_data (init_database db) = Some rows)
  /\ (gold_data db = None ->
      gold_data (init_database db)
      = if accessible db && writable db then Some [] else None)
  /\ init_database (init_database db) = init_database db
  /\ (accessible db = true -> writable db = true ->
      get_data_count (init_database db)
      = Z.of_nat (length (default [] (gold_data db)))).
Proof.
  destruct db as [a w g ts]. unfold init_database.
  cbn [accessible writable gold_data current_timestamp].
  split; [| split; [| split]].
  - intros rows ->. destruct (a && w); reflexivity.
  - intros ->. destruct (a && w); reflexivity.
  - destruct (a && w) eqn:E; cbn [accessible writable gold_data current_timestamp];
      rewrite ?E; [| reflexivity].
    destruct g; reflexivity.
  - intros -> ->. reflexivity.
Qed.

Lemma init_database_keeps_rows_witness :
  gold_data (init_database same_second) = Some [first_record; third_record]
  /\ get_data_count (init_database same_second) = 2.
Proof.
  split.
  - apply (proj1 (init_database_keeps_rows same_second)). reflexivity.
  - apply (proj2 (proj2 (proj2 (init_database_keeps_rows same_second)))); reflexivity.
Defined.

Lemma get_latest_data_failed db n :
  accessible db = false \/ gold_data db = None -> get_latest_data db n = [].
Proof.
  intros H. unfold get_latest_data, connect, select_latest.
  destruct H as [H | H]; rewrite H; [reflexivity |].
  destruct (accessible db); reflexivity.
Qed.

(** X4.  Asking for fewer records gives the beginning of the answer to
    asking for more, on every store, a failing one included. *)
Theorem get_latest_data_prefix db n m :
  0 <= n <= m -> m < 2 ^ 63 ->
  get_latest_data db n = take (Z.to_nat n) (get_latest_data db m).
Proof.
  intros Hn Hm.
  destruct (accessible db) eqn:Ha;
    [| rewrite !get_latest_data_failed by auto; by rewrite take_nil].
  destruct (gold_data db) as [rows |] eqn:Hr;
    [| rewrite !get_latest_data_failed by auto; by rewrite take_nil].
  rewrite (get_latest_data_readable db rows n Ha Hr) by lia.
  rewrite (get_latest_data_readable db rows m Ha Hr) by lia.
  rewrite <- fmap_take, take_take. do 2 f_equal. lia.
Qed.

Lemma get_latest_data_prefix_witness :
  get_latest_data one_per_second 1 = take (Z.to_nat 1) (get_latest_data one_per_second 10).
Proof.
  apply (get_latest_data_prefix one_per_second 1 10).
  - lia.
  - reflexivity.
Defined.

Lemma bind_limit_in_range n :
  - 2 ^ 63 <= n < 2 ^ 63 -> bind_param 1 (VInt n) = Ok (Integer n).
Proof.
  intros [H0 H1]. cbn [bind_param].
  destruct (Z.leb_spec (- 2 ^ 63) n); [| lia].
  destruct (Z.ltb_spec n (2 ^ 63)); [reflexivity | lia].
Qed.

(** X5.  On a readable store [get_latest_data] returns records of the
    table, none of them twice and none made up: together with the rows it
    leaves out they are the table.  A negative limit leaves none out, and so
    does a limit that is at least the count. *)
Theorem get_latest_data_from_table db rows n :
  accessible db = true -> gold_data db = Some rows -> - 2 ^ 63 <= n < 2 ^ 63 ->
  exists left_out,
    get_latest_data db n ++ (record_of <$> left_out) ≡ₚ record_of <$> rows
    /\ length left_out = (length rows - length (get_latest_data db n))%nat
    /\ (n < 0 \/ Z.of_nat (length rows) <= n -> left_out = []).
Proof.
  intros Ha Hr Hn.
  assert (Hg : get_latest_data db n
               = record_of <$> sql_limit n (order_by_created_at_desc rows)).
  { unfold get_latest_data, connect, select_latest. rewrite Ha, Hr. cbn [bind].
    rewrite (bind_limit_in_range n Hn). reflexivity. }
  rewrite Hg. unfold sql_limit.
  destruct (Z.ltb_spec n 0) as [Hneg | Hpos].
  - exists []. rewrite app_nil_r, length_fmap, order_by_created_at_desc_length.
    repeat split; [| cbn; lia].
    by rewrite order_by_created_at_desc_perm.
  - exists (drop (Z.to_nat n) (order_by_created_at_desc rows)).
    rewrite <- fmap_app, take_drop, length_fmap, length_take, length_drop,
      order_by_created_at_desc_length.
    repeat split; [by rewrite order_by_created_at_desc_perm | lia |].
    intros [H | H]; [lia |].
    apply drop_ge. rewrite order_by_created_at_desc_length. lia.
Qed.

Lemma get_latest_data_from_table_witness :
  exists left_out,
    get_latest_data same_second 1 ++ (record_of <$> left_out)
      ≡ₚ record_of <$> [first_record; third_record]
    /\ length left_out = (2 - length (get_latest_data same_second 1))%nat
    /\ (1 < 0 \/ Z.of_nat 2 <= 1 -> left_out = []).
Proof.
  apply (get_latest_data_from_table same_second [first_record; third_record] 1).
  - reflexivity.
  - reflexivity.
  - split; [discriminate | reflexivity].
Defined.

Lemma StronglySorted_take {A} (R : A -> A -> Prop) n l :
  StronglySorted R l -> StronglySorted R (take n l).
Proof.
  intros H. revert n. induction H as [| x l Hs IH Hx]; intros [| n]; cbn;
    try constructor; auto.
  apply Forall_take. exact Hx.
Qed.

(** X6.  When every row carries a text in [created_at], as the column
    default and the INSERT of [save_market_data] give it, the records that
    [get_latest_data] returns are those of a list of rows of the table in
    which no row comes before a row with a later stamp. *)
Theorem get_latest_data_descending db rows n :
  accessible db = true -> gold_data db = Some rows -> - 2 ^ 63 <= n < 2 ^ 63 ->
  Forall text_stamp rows ->
  exists sorted,
    get_latest_data db n = record_of <$> sorted
    /\ StronglySorted not_before sorted
    /\ Forall (fun r => r ∈ rows) sorted.
Proof.
  intros Ha Hr Hn Ht.
  exists (sql_limit n (order_by_created_at_desc rows)).
  split.
  { unfold get_latest_data, connect, select_latest. rewrite Ha, Hr. cbn [bind].
    rewrite (bind_limit_in_range n Hn). reflexivity. }
  pose proof (order_by_created_at_desc_sorted rows Ht) as Hs.
  assert (Hin : Forall (fun r => r ∈ rows) (order_by_created_at_desc rows)).
  { apply Forall_forall. intros r Hr'. by rewrite order_by_created_at_desc_perm in Hr'. }
  unfold sql_limit. destruct (n <? 0); [auto |].
  split; [by apply StronglySorted_take | by apply Forall_take].
Qed.

Lemma get_latest_data_descending_witness :
  exists sorted,
    get_latest_data clock_set_back 2 = record_of <$> sorted
    /\ StronglySorted not_before sorted
    /\ Forall (fun r => r ∈ [first_record; second_record]) sorted.
Proof.
  apply (get_latest_data_descending clock_set_back [first_record; second_record] 2).
  - reflexivity.
  - reflexivity.
  - split; [discriminate | reflexivity].
  - repeat constructor; eexists; reflexivity.
Defined.

(** ** The aggregate of a cycle *)

Lemma keep_none_or_dict s r : none_or_dict (keep s r) = true.
Proof.
  destruct s; cbn [keep]; unfold keep_domestic, keep_current_price;
    destruct r as [[| z | f | t | d] | e]; cbn; try reflexivity.
  - destruct (gt0 (dict_get d "current_price" (VInt 0))) as [[|] |]; cbn; try reflexivity.
    destruct (gt0 (dict_get d "bid_price_1" (VInt 0))) as [[|] |]; cbn; try reflexivity.
    destruct (gt0 (dict_get d "ask_price_1" (VInt 0))) as [[|] |]; cbn; reflexivity.
  - destruct (gt0 (dict_get d "current_price" (VInt 0))) as [[|] |]; reflexivity.
  - destruct (gt0 (dict_get d "current_price" (VInt 0))) as [[|] |]; reflexivity.
  - destruct (gt0 (dict_get d "current_price" (VInt 0))) as [[|] |]; reflexivity.
Qed.

Lemma keep_sound s r :
  keep s r = VNone
  \/ exists d, r = Ok (VDict d) /\ keep s r = VDict d /\ valid_snapshot s d = true.
Proof.
  destruct r as [[| z | f | t | d] | e]; try (left; destruct s; reflexivity).
  destruct s; cbn [keep valid_snapshot]; unfold keep_domestic, keep_current_price,
    any_price_positive, positive; cbn [bind bid_key ask_key].
  - destruct (gt0 (dict_get d "current_price" (VInt 0))) as [[|] |] eqn:E1; cbn;
      [right; exists d; rewrite E1; auto | | by left].
    destruct (gt0 (dict_get d "bid_price_1" (VInt 0))) as [[|] |] eqn:E2; cbn;
      [right; exists d; rewrite E1, E2; auto | | by left].
    destruct (gt0 (dict_get d "ask_price_1" (VInt 0))) as [[|] |] eqn:E3; cbn;
      [right; exists d; rewrite E1, E2, E3; auto | by left ..].
  - destruct (gt0 (dict_get d "current_price" (VInt 0))) as [[|] |] eqn:E1; cbn;
      [right; exists d; rewrite E1; auto | by left ..].
  - destruct (gt0 (dict_get d "current_price" (VInt 0))) as [[|] |] eqn:E1; cbn;
      [right; exists d; rewrite E1; auto | by left ..].
  - destruct (gt0 (dict_get d "current_price" (VInt 0))) as [[|] |] eqn:E1; cbn;
      [right; exists d; rewrite E1; auto | by left ..].
Qed.

(** X7.  Whatever the clients do, every source entry of the aggregate is
    either [None] or the very dict that the client returned, and that dict
    has a price above zero (its current price, or for the ETF quote its
    current, bid or ask price).  An error text, a [None] or an exception of
    a client never reaches the aggregate, and the aggregate has its six keys
    in every cycle. *)
Theorem aggregate_entries_are_valid_snapshots env st :
  (forall s,
      fst (collect_all_data env st) !! key_of s = Some VNone
      \/ exists d,
           outcome (fetched env (clock st) s) = Ok (VDict d)
           /\ fst (collect_all_data env st) !! key_of s = Some (VDict d)
           /\ valid_snapshot s d = true)
  /\ dom (fst (collect_all_data env st))
     = ({[ "domestic"; "us_futures"; "gold_spot"; "usd_krw"; "nav"; "timestamp" ]}
        : gset string).
Proof.
  split.
  - intros s. rewrite collect_all_data_entry.
    destruct (keep_sound s (outcome (fetched env (clock st) s)))
      as [-> | (d & Hr & -> & Hv)]; [by left |].
    right. eauto.
  - rewrite collect_all_data_unfold. cbn [fst].
    rewrite !dom_insert_L, dom_singleton_L. set_solver.
Qed.

Lemma gold_spot_price_of_aggregate env st :
  gold_spot_price_of (fst (collect_all_data env st))
  = gold_spot_price_of
      {[ "domestic" := keep Domestic (outcome (fetched env (clock st) Domestic));
         "us_futures" := keep UsFutures (outcome (fetched env (clock st) UsFutures));
         "gold_spot" := keep GoldSpot (outcome (fetched env (clock st) GoldSpot));
         "usd_krw" := keep UsdKrw (outcome (fetched env (clock st) UsdKrw)) ]}.
Proof.
  rewrite collect_all_data_unfold. cbn [fst]. unfold gold_spot_price_of, dict_get.
  by simplify_map_eq.
Qed.

Lemma aggregate_nav env st :
  fst (collect_all_data env st) !! "nav"
  = Some (VDict (format_nav_for_display
                   (calculate_nav nav_calculator
                      (isoformat env (ends env (clock st) UsdKrw))
                      (gold_spot_price_of (fst (collect_all_data env st)))))).
Proof.
  rewrite gold_spot_price_of_aggregate.
  rewrite collect_all_data_unfold at 1. cbn [fst].
  rewrite lookup_insert_ne by discriminate.
  rewrite lookup_insert_ne by discriminate.
  rewrite lookup_insert_ne by discriminate.
  rewrite lookup_insert_ne by discriminate.
  rewrite lookup_insert_eq. do 2 f_equal.
  set (md := ({[ "domestic" := _; "us_futures" := _; "gold_spot" := _; "usd_krw" := _ ]}
              : gmap string value)).
  assert (Hwf : Forall (fun key => none_or_dict (dict_get md key VNone) = true)
                  other_sources).
  { unfold other_sources, md, dict_get.
    apply Forall_cons_2; [| apply Forall_cons_2; [| apply Forall_cons_2;
      [| apply Forall_nil_2]]];
      simplify_map_eq; cbn [default];
      first [apply (keep_none_or_dict Domestic) | apply (keep_none_or_dict UsFutures)]. }
  destruct (calculate_nav_with_all_data_decompose nav_calculator
              (isoformat env (ends env (clock st) UsdKrw)) md Hwf) as [Hd _].
  unfold format_nav_for_display, dict_get. rewrite <- Hd.
  by rewrite lookup_delete_ne by discriminate.
Qed.

Lemma aggregate_nav_none env st :
  fst (collect_all_data env st) !! "gold_spot" = Some VNone ->
  fst (collect_all_data env st) !! "nav" = Some (VDict {[ "nav_value" := VInt 0 ]}).
Proof.
  intros Hs. rewrite aggregate_nav.
  unfold gold_spot_price_of, dict_get. rewrite Hs. cbn [default].
  rewrite calculate_nav_no_price by (right; reflexivity).
  unfold format_nav_for_display, dict_get. by simplify_map_eq.
Qed.

Lemma aggregate_nav_float env st d p :
  fst (collect_all_data env st) !! "gold_spot" = Some (VDict d) ->
  d !! "current_price" = Some (VFloat p) ->
  SFltb fzero p = true
  /\ fst (collect_all_data env st) !! "nav"
     = Some (VDict {[ "nav_value" :=
                        VFloat (round2 (fmul p (nav_multiplier nav_calculator))) ]}).
Proof.
  intros Hs Hp.
  assert (Hpos : SFltb fzero p = true).
  { pose proof (collect_all_data_entry env st GoldSpot) as He.
    cbn [key_of] in He. rewrite Hs in He.
    destruct (keep_sound GoldSpot (outcome (fetched env (clock st) GoldSpot)))
      as [Hn | (d' & _ & Hk & Hv)]; [rewrite Hn in He; discriminate He |].
    rewrite Hk in He. injection He as He. subst d'.
    cbn [valid_snapshot] in Hv. unfold positive, dict_get in Hv.
    rewrite Hp in Hv. cbn in Hv. exact Hv. }
  split; [exact Hpos |].
  rewrite aggregate_nav.
  assert (Hne : truthy (VDict d) = true).
  { cbn. destruct (size d =? 0)%nat eqn:E; [| reflexivity].
    apply Nat.eqb_eq, map_size_empty_iff in E. subst d.
    by rewrite lookup_empty in Hp. }
  unfold gold_spot_price_of, dict_get. rewrite Hs. cbn [default from_option id].
  rewrite Hne, Hp. cbn [default from_option id].
  destruct (positive_float p Hpos) as [Hle Heq].
  rewrite (calculate_nav_price nav_calculator _ (VFloat p) p (format_float_comma_0f p));
    cbn; rewrite ?Hle, ?Heq; reflexivity.
Qed.

(** X8.  The [nav] entry of the aggregate is computed from the gold spot
    entry of the same aggregate and from nothing else: it is
    [{"nav_value": v}] with [v] the metric that [calculate_nav] gives for the
    current price of that entry.  So it is the int 0 when the gold spot
    entry is [None], and [round(p * k, 2)] when the entry holds the float
    [p]. *)
Theorem aggregate_nav_from_gold_spot env st :
  let collected := fst (collect_all_data env st) in
  collected !! "nav"
  = Some (VDict (format_nav_for_display
                   (calculate_nav nav_calculator
                      (isoformat env (ends env (clock st) UsdKrw))
                      (gold_spot_price_of collected))))
  /\ (collected !! "gold_spot" = Some VNone ->
      collected !! "nav" = Some (VDict {[ "nav_value" := VInt 0 ]}))
  /\ (forall d p,
      collected !! "gold_spot" = Some (VDict d) ->
      d !! "current_price" = Some (VFloat p) ->
      SFltb fzero p = true
      /\ collected !! "nav"
         = Some (VDict {[ "nav_value" :=
                            VFloat (round2 (fmul p (nav_multiplier nav_calculator))) ]})).
Proof.
  cbv zeta. split; [apply aggregate_nav |].
  split; [apply aggregate_nav_none | apply aggregate_nav_float].
Qed.

Lemma aggregate_nav_from_gold_spot_witness :
  fst (collect_all_data two_of_four idle_state) !! "nav"
  = Some (VDict {[ "nav_value" := VInt 0 ]}).
Proof.
  apply (proj1 (proj2 (aggregate_nav_from_gold_spot two_of_four idle_state))).
  vm_compute. reflexivity.
Defined.

(** ** What a cycle hands to the INSERT *)

Lemma extract_none_or_dict data key :
  none_or_dict data = true -> extract data key = Ok (bound_field data key).
Proof.
  unfold extract, bound_field.
  destruct data as [| z | f | s | d]; cbn; try discriminate; intros _; [reflexivity |].
  destruct (negb (size d =? 0)%nat) eqn:Hd; [reflexivity |].
  apply negb_false_iff, Nat.eqb_eq, map_size_empty_iff in Hd. subst d.
  unfold dict_get. by rewrite lookup_empty.
Qed.

Lemma insert_parameters_none_or_dict korean_time timestamp
    domestic_data us_futures_data gold_spot_data nav_data usd_krw_data :
  none_or_dict domestic_data = true -> none_or_dict us_futures_data = true ->
  none_or_dict gold_spot_data = true -> none_or_dict nav_data = true ->
  none_or_dict usd_krw_data = true ->
  insert_parameters korean_time timestamp
    domestic_data us_futures_data gold_spot_data nav_data usd_krw_data
  = Ok [ VStr timestamp;
         bound_field usd_krw_data "current_price";
         bound_field domestic_data "current_price";
         bound_field domestic_data "bid_price_1";
         bound_field domestic_data "bid_volume_1";
         bound_field domestic_data "ask_price_1";
         bound_field domestic_data "ask_volume_1";
         bound_field us_futures_data "current_price";
         bound_field us_futures_data "bid_price";
         bound_field us_futures_data "bid_volume";
         bound_field us_futures_data "ask_price";
         bound_field us_futures_data "ask_volume";
         bound_field gold_spot_data "current_price";
         bound_field gold_spot_data "bid_price_1";
         bound_field gold_spot_data "bid_volume_1";
         bound_field gold_spot_data "ask_price_1";
         bound_field gold_spot_data "ask_volume_1";
         bound_field nav_data "nav_value";
         VStr korean_time ].
Proof.
  intros Hd Hu Hg Hn Hk. unfold insert_parameters.
  rewrite !extract_none_or_dict by assumption. reflexivity.
Qed.

Lemma aggregate_entry_none_or_dict env st s :
  none_or_dict (dict_get (fst (collect_all_data env st)) (key_of s) VNone) = true.
Proof.
  unfold dict_get. rewrite collect_all_data_entry. apply keep_none_or_dict.
Qed.

(** X21.  In every cycle the tuple that [save_market_data] makes of the
    collected data for its INSERT is built without an exception.  Each
    column of a source takes [None] when the entry of the source is [None]
    or its snapshot has no such key, and otherwise the value that the
    snapshot holds, a zero included; [nav_value] takes the value of the
    metric, which is the int 0, not [None], whenever the gold spot entry is
    [None]. *)
Theorem cycle_parameters_bound env st korean_time timestamp :
  let entry key := dict_get (fst (collect_all_data env st)) key VNone in
  insert_parameters korean_time timestamp
    (entry "domestic") (entry "us_futures") (entry "gold_spot") (entry "nav")
    (entry "usd_krw")
  = Ok [ VStr timestamp;
         bound_field (entry "usd_krw") "current_price";
         bound_field (entry "domestic") "current_price";
         bound_field (entry "domestic") "bid_price_1";
         bound_field (entry "domestic") "bid_volume_1";
         bound_field (entry "domestic") "ask_price_1";
         bound_field (entry "domestic") "ask_volume_1";
         bound_field (entry "us_futures") "current_price";
         bound_field (entry "us_futures") "bid_price";
         bound_field (entry "us_futures") "bid_volume";
         bound_field (entry "us_futures") "ask_price";
         bound_field (entry "us_futures") "ask_volume";
         bound_field (entry "gold_spot") "current_price";
         bound_field (entry "gold_spot") "bid_price_1";
         bound_field (entry "gold_spot") "bid_volume_1";
         bound_field (entry "gold_spot") "ask_price_1";
         bound_field (entry "gold_spot") "ask_volume_1";
         bound_field (entry "nav") "nav_value";
         VStr korean_time ]
  /\ (entry "gold_spot" = VNone -> bound_field (entry "nav") "nav_value" = VInt 0).
Proof.
  cbv zeta. split.
  - apply insert_parameters_none_or_dict.
    + apply (aggregate_entry_none_or_dict env st Domestic).
    + apply (aggregate_entry_none_or_dict env st UsFutures).
    + apply (aggregate_entry_none_or_dict env st GoldSpot).
    + unfold dict_get. by rewrite aggregate_nav.
    + apply (aggregate_entry_none_or_dict env st UsdKrw).
  - intros Hs.
    assert (Hg : fst (collect_all_data env st) !! "gold_spot" = Some VNone).
    { pose proof (collect_all_data_entry env st GoldSpot) as He.
      cbn [key_of] in He. unfold dict_get in Hs. rewrite He in Hs |- *.
      cbn [default from_option id] in Hs. by rewrite Hs. }
    unfold dict_get. rewrite (aggregate_nav_none env st Hg).
    cbn [default from_option id bound_field]. unfold dict_get. by simplify_map_eq.
Qed.

Lemma cycle_parameters_bound_witness :
  bound_field (dict_get (fst (collect_all_data all_sources_fail idle_state)) "nav" VNone)
    "nav_value"
  = VInt 0.
Proof.
  refine (proj2 (cycle_parameters_bound all_sources_fail idle_state
                   "2025-06-02 10:00:08" "2025-06-02T10:00:08.000000+09:00") _).
  reflexivity.
Defined.

(** Two such tuples.  In a cycle in which every source times out the value
    for [nav_value] is the int 0; in a cycle in which the ETF quote has a
    bid and an ask and no last price, the value for [domestic_current_price]
    is the float 0.0. *)
Example unobtained_fields_bound_as_zero :
  parameters_of empty_cycle
  = Ok [ VStr "iso 8000000"; VNone; VNone; VNone; VNone; VNone; VNone; VNone; VNone;
         VNone; VNone; VNone; VNone; VNone; VNone; VNone; VNone; VInt 0;
         VStr "sec 8" ]
  /\ bid_only_cycle !! "domestic" = Some (VDict quote_without_last_price)
  /\ parameters_of bid_only_cycle
     = Ok [ VStr "iso 8000000"; VNone; VFloat fzero; VFloat (float_of_Z 21500); VInt 120;
            VFloat (float_of_Z 21505); VInt 80; VNone; VNone;
            VNone; VNone; VNone; VNone; VNone; VNone; VNone; VNone; VInt 0;
            VStr "sec 8" ].
Proof. split; [| split]; vm_compute; reflexivity. Qed.

(** ** The pace of the loop *)

Lemma after_cycle_clock_max env count st :
  clock (after_cycle env count st)
  = Z.max (clock st + period) (clock st + work env (clock st)).
Proof.
  unfold after_cycle, ends, begins, work. cbn [clock].
  pose proof (wait_nonneg env (clock st) Domestic).
  pose proof (wait_nonneg env (clock st) UsFutures).
  pose proof (wait_nonneg env (clock st) GoldSpot).
  pose proof (wait_nonneg env (clock st) UsdKrw).
  destruct (Z.ltb_spec 0 (Z.max 0 (period - (clock st + wait env (clock st) Domestic
      + wait env (clock st) UsFutures + wait env (clock st) GoldSpot
      + wait env (clock st) UsdKrw - clock st)))); lia.
Qed.

Lemma cycle_begins_app evs1 evs2 :
  cycle_begins (evs1 ++ evs2) = cycle_begins evs1 ++ cycle_begins evs2.
Proof. unfold cycle_begins. apply omap_app. Qed.

Lemma cycles_begins env fuel :
  forall count st, exists evs,
    trace (snd (cycles env fuel count st)) = trace st ++ evs
    /\ Forall (fun t => clock st <= t) (cycle_begins evs)
    /\ spaced period (cycle_begins evs) = true.
Proof.
  induction fuel as [| fuel IH]; intros count st.
  - exists []. split; [cbn; by rewrite app_nil_r |]. split; [constructor | reflexivity].
  - destruct (running st) eqn:Hr.
    + rewrite (cycles_step env fuel count st Hr).
      destruct (IH (count + 1) (after_cycle env (count + 1) st)) as (evs & Ht & Hf & Hs).
      pose proof (after_cycle_clock_max env (count + 1) st) as Hc.
      set (pre := [CycleBegin (count + 1) (clock st)] ++ fetch_events env (clock st)
                  ++ [SaveMarketData false;
                      CycleEnd (count + 1) (ends env (clock st) UsdKrw)]).
      assert (Hpre : cycle_begins pre = [clock st]) by reflexivity.
      exists (pre ++ evs).
      rewrite cycle_begins_app, Hpre.
      split; [| split].
      * rewrite Ht. unfold after_cycle. cbn [trace]. by rewrite <- app_assoc.
      * constructor; [lia |].
        eapply Forall_impl; [exact Hf |]. intros t Hle. cbv beta in Hle |- *.
        unfold period in Hc. lia.
      * change ([clock st] ++ cycle_begins evs) with (clock st :: cycle_begins evs).
        cbn [spaced]. rewrite Hs, andb_true_r.
        destruct (cycle_begins evs) as [| b bs]; [reflexivity |].
        apply Forall_cons in Hf as [Hb _]. apply Z.leb_le. lia.
    + rewrite (cycles_stopped env (S fuel) count st Hr).
      exists []. split; [cbn; by rewrite app_nil_r |].
      split; [constructor | reflexivity].
Qed.

(** X9.  The loop begins at most one cycle per period: in the log of a run
    of [start_real_time_collection], two successive cycles begin at least
    one second apart, whatever the clients answer and however long they
    take. *)
Theorem cycles_at_least_a_period_apart env fuel st :
  spaced period
    (cycle_begins (events_since st (snd (start_real_time_collection env fuel st))))
  = true.
Proof.
  unfold start_real_time_collection, seq, set_running, ret.
  destruct (cycles_begins env fuel 0
              {| clock := clock st; db := db st; running := true; trace := trace st |})
    as (evs & Ht & _ & Hs).
  destruct (cycles env fuel 0 _) as [count st'] eqn:E. cbn [snd trace] in *.
  by rewrite (events_since_app st _ evs) by exact Ht.
Qed.

(** X10.  After a cycle the loop is ready for the next one second after the
    cycle began when the four calls took less than a second, and as soon as
    they are over when they took longer: the sleep makes up the difference
    and is never negative. *)
Theorem next_cycle_start env count st :
  running st = true ->
  clock (snd (cycles env 1 count st))
  = Z.max (clock st + period) (clock st + work env (clock st))
  /\ fst (cycles env 1 count st) = count + 1.
Proof.
  intros Hr. rewrite (cycles_step env 0 count st Hr). cbn [cycles ret fst snd].
  split; [apply after_cycle_clock_max | reflexivity].
Qed.

Lemma next_cycle_start_witness :
  clock (snd (cycles slow_first_source 1 0
                {| clock := 0; db := fresh_database; running := true; trace := [] |}))
  = Z.max (0 + period)
      (0 + work slow_first_source 0)
  /\ fst (cycles slow_first_source 1 0
            {| clock := 0; db := fresh_database; running := true; trace := [] |}) = 0 + 1.
Proof.
  apply (next_cycle_start slow_first_source 0
           {| clock := 0; db := fresh_database; running := true; trace := [] |}).
  reflexivity.
Defined.

(** X11.  A call of [stop_collection] made while the loop sleeps after a
    cycle lets no further cycle begin: [start_real_time_collection] returns
    having run that one cycle, with [running] set to [False].  The request
    is looked at only there, so it needs a cycle shorter than the period. *)
Theorem stop_during_sleep_ends_loop env fuel st :
  work env (clock st) < period ->
  stop_requested env (ends env (clock st) UsdKrw) = true ->
  fst (start_real_time_collection env (S fuel) st) = 1
  /\ running (snd (start_real_time_collection env (S fuel) st)) = false
  /\ cycle_begins (events_since st (snd (start_real_time_collection env (S fuel) st)))
     = [clock st].
Proof.
  intros Hw Hstop.
  unfold start_real_time_collection, seq, set_running, ret.
  set (st0 := {| clock := clock st; db := db st; running := true; trace := trace st |}).
  rewrite (cycles_step env fuel 0 st0 eq_refl).
  assert (Hstopped : running (after_cycle env (0 + 1) st0) = false).
  { unfold after_cycle, st0. cbn [clock running].
    assert (Hs : (0 <? Z.max 0 (period - (ends env (clock st) UsdKrw - clock st))) = true).
    { apply Z.ltb_lt. unfold work, ends, begins, period in *. lia. }
    rewrite Hs, Hstop. reflexivity. }
  rewrite (cycles_stopped env fuel (0 + 1) _ Hstopped). cbn [fst snd running].
  split; [reflexivity |]. split; [reflexivity |].
  rewrite (events_since_app st _
             ([CycleBegin (0 + 1) (clock st)] ++ fetch_events env (clock st)
              ++ [SaveMarketData false; CycleEnd (0 + 1) (ends env (clock st) UsdKrw)])).
  - reflexivity.
  - unfold after_cycle, st0. cbn [trace clock]. reflexivity.
Qed.

Lemma stop_during_sleep_ends_loop_witness :
  fst (start_real_time_collection stop_while_asleep 3 idle_state) = 1
  /\ running (snd (start_real_time_collection stop_while_asleep 3 idle_state)) = false
  /\ cycle_begins
       (events_since idle_state
          (snd (start_real_time_collection stop_while_asleep 3 idle_state)))
     = [clock idle_state].
Proof.
  apply (stop_during_sleep_ends_loop stop_while_asleep 2 idle_state); reflexivity.
Defined.

(** ** The source clients *)

Import Clients.

Ltac step_bind :=
  match goal with
  | |- context [bind ?c _] =>
      lazymatch c with
      | Ok _ => fail
      | Raise _ => fail
      | _ => destruct c eqn:?
      end
  end;
  cbn [bind].

Lemma keep_current_price_none : Collector.keep_current_price (Ok VNone) = VNone.
Proof. reflexivity. Qed.

Lemma keep_current_price_text s : Collector.keep_current_price (Ok (VStr s)) = VNone.
Proof. reflexivity. Qed.

Lemma keep_current_price_zero_quote stamp :
  Collector.keep_current_price (Ok (VDict (zero_quote stamp))) = VNone.
Proof. reflexivity. Qed.

Lemma keep_current_price_filled stamp cp bp bv ap av :
  Collector.keep_current_price (Ok (VDict (filled_quote stamp cp bp bv ap av)))
  = if SFltb fzero cp then VDict (filled_quote stamp cp bp bv ap av) else VNone.
Proof.
  unfold Collector.keep_current_price. cbn [bind].
  unfold filled_quote at 1, dict_get. rewrite lookup_insert_eq. reflexivity.
Qed.

(** X12.  Whatever the exchange-rate endpoint answers, [get_usd_krw_rate]
    returns [None] or a dict of a rate above zero and the time of the call;
    it raises nothing.  The check of the collector therefore changes nothing
    of what this client returns. *)
Theorem usd_krw_rate_none_or_positive stamp reply :
  (get_usd_krw_rate stamp reply = VNone
   \/ exists v,
        get_usd_krw_rate stamp reply
        = VDict {[ "current_price" := v; "timestamp" := VStr stamp ]}
        /\ gt0 v = Ok true)
  /\ Collector.keep_current_price (Ok (get_usd_krw_rate stamp reply))
     = get_usd_krw_rate stamp reply.
Proof.
  assert (H : get_usd_krw_rate stamp reply = VNone
              \/ exists v,
                   get_usd_krw_rate stamp reply
                   = VDict {[ "current_price" := v; "timestamp" := VStr stamp ]}
                   /\ gt0 v = Ok true).
  { unfold get_usd_krw_rate.
    destruct (ok_of reply) as [resp |]; cbn; [| by left].
    destruct (ok_of (json_body resp)) as [data |]; cbn; [| by left].
    destruct (if status_code resp =? 200 then json_in "chart" data else Some false)
      as [[|] |]; cbn; try by left.
    destruct (json_item data "chart") as [c |]; cbn; [| by left].
    destruct (json_item c "result") as [r |]; cbn; [| by left].
    destruct (json_first r) as [ch |]; cbn; [| by left].
    destruct (json_item ch "meta") as [m |]; cbn; [| by left].
    destruct (ok_of (json_get m "regularMarketPrice" (JInt 0))) as [cp |]; cbn; [| by left].
    destruct cp as [| b | z | f | s | l | o]; cbn; try by left.
    - destruct b; cbn; [| by left]. right. eexists. split; reflexivity.
    - destruct (Z.ltb_spec 0 z) as [Hz |]; cbn; [| by left].
      destruct (ok_of (float_of_int z)); cbn; [| by left].
      right. eexists. split; [reflexivity |]. cbn. f_equal. by apply Z.ltb_lt.
    - destruct (SFltb fzero f) eqn:Hf; cbn; [| by left].
      right. eexists. split; [reflexivity |]. cbn. by rewrite Hf. }
  split; [exact H |].
  destruct H as [-> | (v & -> & Hv)]; [reflexivity |].
  unfold Collector.keep_current_price. cbn [bind].
  unfold dict_get. rewrite lookup_insert_eq. cbn [default from_option id].
  by rewrite Hv.
Qed.

(** X13.  [get_usd_krw_rate] returns [None] for every answer whose status is
    not 200, and for a 200 answer it reads the rate from
    [chart.result[0].meta.regularMarketPrice]: a float above zero there is
    returned as the [current_price]. *)
Theorem usd_krw_rate_read stamp resp :
  (status_code resp <> 200 -> get_usd_krw_rate stamp (Ok resp) = VNone)
  /\ (forall o c rest ch m p,
        status_code resp = 200 ->
        json_body resp = Ok (JObj o) ->
        o !! "chart" = Some (JObj c) ->
        c !! "result" = Some (JList (JObj ch :: rest)) ->
        ch !! "meta" = Some (JObj m) ->
        m !! "regularMarketPrice" = Some (JFloat p) ->
        get_usd_krw_rate stamp (Ok resp)
        = if SFltb fzero p
          then VDict {[ "current_price" := VFloat p; "timestamp" := VStr stamp ]}
          else VNone).
Proof.
  split.
  - intros Hs. unfold get_usd_krw_rate. cbn.
    destruct (ok_of (json_body resp)); cbn; [| reflexivity].
    destruct (Z.eqb_spec (status_code resp) 200); [contradiction | reflexivity].
  - intros o c rest ch m p Hs Hb Ho Hc Hch Hm.
    unfold get_usd_krw_rate. cbn. rewrite Hb, Hs. cbn.
    rewrite Ho. cbn. rewrite Hc. cbn. rewrite Hch. cbn. rewrite Hm. cbn.
    destruct (SFltb fzero p); reflexivity.
Qed.

Lemma usd_krw_rate_read_witness :
  get_usd_krw_rate "2025-06-02T10:00:03.400000+09:00" (Ok chart_answer)
  = VDict {[ "current_price" := VFloat (fdiv (float_of_Z 2681) (float_of_Z 2));
             "timestamp" := VStr "2025-06-02T10:00:03.400000+09:00" ]}.
Proof.
  refine (proj2 (usd_krw_rate_read "2025-06-02T10:00:03.400000+09:00" chart_answer)
            _ _ _ _ _ (fdiv (float_of_Z 2681) (float_of_Z 2)) _ _ _ _ _ _);
    reflexivity.
Defined.

(** *** The quotes of the broker *)

(** The four shapes of what [get_gd_gold_spot] returns. *)
Lemma get_gd_gold_spot_shapes cv ts w :
  let r := fst (get_gd_gold_spot cv ts w) in
  r = VStr token_refused
  \/ r = VStr token_expired
  \/ r = VDict (zero_quote (stamp w))
  \/ exists cp bp bv ap av,
       r = VDict (filled_quote (stamp w) cp bp bv ap av) /\ SFltb fzero cp = true.
Proof.
  cbv zeta. unfold get_gd_gold_spot.
  destruct (ensure_token ts w) as [[|] ts']; cbn [negb fst]; [| by left].
  destruct (reply w) as [resp |]; cbn [bind fst]; [| by right; right; left].
  destruct (json_body resp) as [api |]; cbn [bind fst]; [| by right; right; left].
  destruct (json_get api "rt_cd" JNull) as [rt |]; cbn [bind fst]; [| by right; right; left].
  destruct (answered resp api) as [[|] |]; cbn [bind fst]; [| | by right; right; left].
  - repeat (step_bind; [| by right; right; left]).
    destruct (SFltb fzero _) eqn:Hp; cbn [bind fst]; [| by right; right; left].
    repeat (step_bind; [| by right; right; left]).
    right; right; right. eauto 10.
  - repeat (step_bind; [| by right; right; left]).
    destruct (json_is _ "1"); cbn [fst]; [by right; left | by right; right; left].
Qed.

(** X14.  [get_gd_gold_spot] returns one of four things and raises nothing:
    the text for a token that could not be renewed, the text for an expired
    token, its quote of zeros, or a quote whose current price is a float
    above zero.  Only the last one passes the check of the collector, which
    keeps it as it is. *)
Theorem gold_spot_kept_only_with_price cv ts w :
  let r := fst (get_gd_gold_spot cv ts w) in
  (Collector.keep_current_price (Ok r) = VNone
   /\ (r = VStr token_refused \/ r = VStr token_expired
       \/ r = VDict (zero_quote (stamp w))))
  \/ exists cp bp bv ap av,
       r = VDict (filled_quote (stamp w) cp bp bv ap av)
       /\ SFltb fzero cp = true
       /\ Collector.keep_current_price (Ok r) = r.
Proof.
  cbv zeta.
  destruct (get_gd_gold_spot_shapes cv ts w)
    as [-> | [-> | [-> | (cp & bp & bv & ap & av & -> & Hp)]]].
  - left. auto.
  - left. auto.
  - left. auto.
  - right. exists cp, bp, bv, ap, av.
    rewrite keep_current_price_filled, Hp. auto.
Qed.

Lemma keep_current_price_futures cp bp ap bv av stamp :
  Collector.keep_current_price
    (Ok (VDict {[ "current_price" := VFloat cp; "bid_price" := VFloat bp;
                  "ask_price" := VFloat ap; "bid_volume" := VInt bv;
                  "ask_volume" := VInt av; "timestamp" := VStr stamp ]}))
  = if SFltb fzero cp
    then VDict {[ "current_price" := VFloat cp; "bid_price" := VFloat bp;
                  "ask_price" := VFloat ap; "bid_volume" := VInt bv;
                  "ask_volume" := VInt av; "timestamp" := VStr stamp ]}
    else VNone.
Proof.
  unfold Collector.keep_current_price. cbn [bind].
  unfold dict_get. rewrite lookup_insert_eq. reflexivity.
Qed.

(** X15.  [get_us_gold_futures_data] raises nothing and returns the text for
    a token that could not be renewed, the text for a closed market (after
    any exception), [None], or a dict of three float prices and two int
    sizes.  It returns [None], by running off its end, whenever the answer
    decodes and its status is not 200.  The collector keeps the dict when
    its current price is above zero and nothing else. *)
Theorem futures_quote_shapes cv ts w :
  let r := fst (get_us_gold_futures_data cv ts w) in
  ((Collector.keep_current_price (Ok r) = VNone
    /\ (r = VStr token_refused \/ r = VStr market_closed \/ r = VNone))
   \/ exists cp bp ap bv av,
        r = VDict {[ "current_price" := VFloat cp; "bid_price" := VFloat bp;
                     "ask_price" := VFloat ap; "bid_volume" := VInt bv;
                     "ask_volume" := VInt av; "timestamp" := VStr (stamp w) ]}
        /\ Collector.keep_current_price (Ok r) = if SFltb fzero cp then r else VNone)
  /\ (forall resp body,
        fst (ensure_token ts w) = true -> reply w = Ok resp ->
        json_body resp = Ok body -> status_code resp <> 200 ->
        r = VNone).
Proof.
  cbv zeta. split.
  - unfold get_us_gold_futures_data.
    destruct (ensure_token ts w) as [[|] ts']; cbn [negb fst]; [| left; auto].
    destruct (reply w) as [resp |]; cbn [bind fst]; [| left; auto].
    destruct (json_body resp) as [api |]; cbn [bind fst]; [| left; auto].
    destruct (answered resp api) as [[|] |]; cbn [bind fst]; [| left; auto ..].
    repeat (step_bind; [| left; auto]).
    right. do 5 eexists. split; [reflexivity |]. cbn [fst].
    apply keep_current_price_futures.
  - intros resp body Ht Hr Hb Hs. unfold get_us_gold_futures_data.
    destruct (ensure_token ts w) as [ok ts']. cbn [fst] in Ht. subst ok. cbn [negb].
    rewrite Hr. cbn [bind]. rewrite Hb. cbn [bind]. unfold answered.
    destruct (Z.eqb_spec (status_code resp) 200); [contradiction | reflexivity].
Qed.

Lemma futures_quote_shapes_witness :
  fst (get_us_gold_futures_data digits_only good_token (call_with (Ok refused_answer)))
  = VNone.
Proof.
  refine (proj2 (futures_quote_shapes digits_only good_token
                   (call_with (Ok refused_answer))) refused_answer _ _ _ _ _);
    [reflexivity | reflexivity | reflexivity | discriminate].
Defined.

Lemma keep_domestic_text s : Collector.keep_domestic (Ok (VStr s)) = VNone.
Proof. reflexivity. Qed.

Lemma keep_domestic_filled stamp cp bp bv ap av :
  Collector.keep_domestic (Ok (VDict (filled_quote stamp cp bp bv ap av)))
  = if SFltb fzero cp || SFltb fzero bp || SFltb fzero ap
    then VDict (filled_quote stamp cp bp bv ap av) else VNone.
Proof.
  unfold Collector.keep_domestic. cbn [bind].
  assert (Hc : dict_get (filled_quote stamp cp bp bv ap av) "current_price" (VInt 0)
               = VFloat cp) by (unfold filled_quote, dict_get; by simplify_map_eq).
  assert (Hb : dict_get (filled_quote stamp cp bp bv ap av) "bid_price_1" (VInt 0)
               = VFloat bp) by (unfold filled_quote, dict_get; by simplify_map_eq).
  assert (Ha : dict_get (filled_quote stamp cp bp bv ap av) "ask_price_1" (VInt 0)
               = VFloat ap) by (unfold filled_quote, dict_get; by simplify_map_eq).
  rewrite Hc, Hb, Ha. cbn [gt0 bind].
  destruct (SFltb fzero cp); cbn; [reflexivity |].
  destruct (SFltb fzero bp); cbn; [reflexivity |].
  destruct (SFltb fzero ap); reflexivity.
Qed.

(** X16.  [get_gold_411060_data] raises nothing and returns a text (for a
    token that could not be renewed, an expired token or any exception), its
    quote of zeros (for an answer that is not the expected one), or a quote
    of three float prices and two int sizes.  The collector drops the texts
    and the quote of zeros, and keeps the filled quote exactly when its
    current, bid or ask price is above zero.  An expected answer that
    carries none of the five fields gives a quote of 0.0 prices, which is
    dropped. *)
Theorem etf_quote_shapes cv ts w :
  let r := fst (get_gold_411060_data cv ts w) in
  ((Collector.keep_domestic (Ok r) = VNone
    /\ ((exists text, r = VStr text) \/ r = VDict (zero_quote (stamp w))))
   \/ exists cp bp bv ap av,
        r = VDict (filled_quote (stamp w) cp bp bv ap av)
        /\ Collector.keep_domestic (Ok r)
           = if SFltb fzero cp || SFltb fzero bp || SFltb fzero ap then r else VNone)
  /\ (forall resp api,
        fst (ensure_token ts w) = true -> reply w = Ok resp ->
        status_code resp = 200 -> json_body resp = Ok (JObj api) ->
        api !! "rt_cd" = Some (JStr "0") ->
        api !! "output1" = None -> api !! "output2" = None ->
        r = VDict (filled_quote (stamp w) fzero fzero 0 fzero 0)
        /\ Collector.keep_domestic (Ok r) = VNone).
Proof.
  cbv zeta. split.
  - unfold get_gold_411060_data.
    destruct (ensure_token ts w) as [[|] ts']; cbn [negb fst]; [| left; eauto].
    destruct (reply w) as [resp |]; cbn [bind fst]; [| left; eauto].
    destruct (json_body resp) as [api |]; cbn [bind fst]; [| left; eauto].
    destruct (answered resp api) as [[|] |]; cbn [bind fst]; [| | left; eauto].
    + repeat (step_bind; [| left; eauto]).
      right. do 5 eexists. split; [reflexivity |]. cbn [fst].
      apply keep_domestic_filled.
    + repeat (step_bind; [| left; eauto]).
      destruct (json_is _ "1"); cbn [fst]; left; eauto.
  - intros resp api Ht Hr Hs Hb Hrt Ho1 Ho2.
    assert (Hq : fst (get_gold_411060_data cv ts w)
                 = VDict (filled_quote (stamp w) fzero fzero 0 fzero 0)).
    { unfold get_gold_411060_data.
      destruct (ensure_token ts w) as [ok ts']. cbn [fst] in Ht. subst ok. cbn [negb].
      rewrite Hr. cbn [bind]. rewrite Hb. cbn [bind]. unfold answered.
      rewrite Hs. cbn. rewrite Hrt. cbn. rewrite Ho1, Ho2. reflexivity. }
    split; [exact Hq |].
    rewrite Hq, keep_domestic_filled. reflexivity.
Qed.

Lemma etf_quote_shapes_witness :
  fst (get_gold_411060_data digits_only good_token
         (call_with (Ok {| status_code := 200;
                           json_body := Ok (JObj {[ "rt_cd" := JStr "0" ]}) |})))
  = VDict (filled_quote "2025-06-02T10:00:00.001000+09:00" fzero fzero 0 fzero 0)
  /\ Collector.keep_domestic
       (Ok (fst (get_gold_411060_data digits_only good_token
              (call_with (Ok {| status_code := 200;
                                json_body := Ok (JObj {[ "rt_cd" := JStr "0" ]}) |})))))
     = VNone.
Proof.
  refine (proj2 (etf_quote_shapes digits_only good_token
                   (call_with (Ok {| status_code := 200;
                                     json_body := Ok (JObj {[ "rt_cd" := JStr "0" ]}) |})))
            _ {[ "rt_cd" := JStr "0" ]} _ _ _ _ _ _ _);
    reflexivity.
Defined.

(** *** The token *)

(** X17.  A token request that is answered with status 200 and an object
    holding a non-empty [access_token] stores that token with an expiry of
    23 hours after the instant of storing: from then on [is_token_valid]
    holds exactly before that expiry.  This is so even when the token file
    cannot be written, in which case [get_access_token] still returns
    [False].  A request that raises, or whose status is not 200, leaves the
    client as it was. *)
Theorem granted_token_valid_23_hours ts w :
  (forall resp o token,
      token_reply w = Ok resp -> status_code resp = 200 ->
      json_body resp = Ok (JObj o) -> o !! "access_token" = Some token ->
      json_truthy token = true ->
      access_token (snd (get_access_token ts w)) = token
      /\ (forall now,
            is_token_valid (snd (get_access_token ts w)) now
            = (now <? issued_at w + hours_23))
      /\ fst (get_access_token ts w)
         = match token_file w with Ok _ => true | Raise _ => false end)
  /\ (forall e, token_reply w = Raise e -> get_access_token ts w = (false, ts))
  /\ (forall resp,
      token_reply w = Ok resp -> status_code resp <> 200 ->
      get_access_token ts w = (false, ts)).
Proof.
  split; [| split].
  - intros resp o token Hr Hs Hb Ho Ht.
    assert (Hg : get_access_token ts w
                 = (match token_file w with Ok _ => true | Raise _ => false end,
                    {| access_token := token;
                       token_expire_time := Some (issued_at w + hours_23) |})).
    { unfold get_access_token. rewrite Hr. cbn. rewrite Hb, Hs. cbn.
      rewrite Ho. cbn. reflexivity. }
    rewrite Hg. cbn [fst snd access_token].
    split; [reflexivity |]. split; [| reflexivity].
    intros now. unfold is_token_valid. cbn [token_expire_time access_token].
    by rewrite Ht.
  - intros e Hr. unfold get_access_token. rewrite Hr. reflexivity.
  - intros resp Hr Hs. unfold get_access_token. rewrite Hr. cbn.
    destruct (ok_of (json_body resp)); cbn; [| reflexivity].
    destruct (Z.eqb_spec (status_code resp) 200); [contradiction | reflexivity].
Qed.

Lemma granted_token_valid_23_hours_witness :
  access_token (snd (get_access_token no_token (call_with (Ok spot_answer))))
  = JStr "eyJ0eXAiOiJKV1QiLCJhbGciOiJIUzUxMiJ9"
  /\ (forall now,
        is_token_valid (snd (get_access_token no_token (call_with (Ok spot_answer)))) now
        = (now <? issued_at (call_with (Ok spot_answer)) + hours_23))
  /\ fst (get_access_token no_token (call_with (Ok spot_answer)))
     = match token_file (call_with (Ok spot_answer)) with
       | Ok _ => true
       | Raise _ => false
       end.
Proof.
  refine (proj1 (granted_token_valid_23_hours no_token (call_with (Ok spot_answer)))
            token_answer _ (JStr "eyJ0eXAiOiJKV1QiLCJhbGciOiJIUzUxMiJ9") _ _ _ _ _);
    reflexivity.
Defined.

(** X18.  While the token is valid a data method asks for no token and
    leaves the client as it was.  When it is not valid and the renewal
    fails, each of the three data methods returns the same text and asks
    the broker for no quote: what it returns does not depend on the answer
    to the data request. *)
Theorem token_guard cv ts w :
  (is_token_valid ts (checked_at w) = true ->
   snd (get_gold_411060_data cv ts w) = ts
   /\ snd (get_gd_gold_spot cv ts w) = ts
   /\ snd (get_us_gold_futures_data cv ts w) = ts)
  /\ (is_token_valid ts (checked_at w) = false ->
      fst (get_access_token ts w) = false ->
      fst (get_gold_411060_data cv ts w) = VStr token_refused
      /\ fst (get_gd_gold_spot cv ts w) = VStr token_refused
      /\ fst (get_us_gold_futures_data cv ts w) = VStr token_refused).
Proof.
  split.
  - intros Hv. unfold get_gold_411060_data, get_gd_gold_spot, get_us_gold_futures_data,
      ensure_token. rewrite Hv. cbn [negb].
    repeat split.
    + by destruct (_ : result value).
    + by destruct (_ : result (option value)) as [[v |] |].
    + by destruct (_ : result value).
  - intros Hv Hf. unfold get_gold_411060_data, get_gd_gold_spot, get_us_gold_futures_data,
      ensure_token. rewrite Hv.
    destruct (get_access_token ts w) as [ok ts']. cbn [fst] in Hf. subst ok.
    repeat split.
Qed.

Lemma token_guard_witness :
  snd (get_gold_411060_data digits_only good_token (call_with (Ok spot_answer)))
    = good_token
  /\ snd (get_gd_gold_spot digits_only good_token (call_with (Ok spot_answer)))
    = good_token
  /\ snd (get_us_gold_futures_data digits_only good_token (call_with (Ok spot_answer)))
    = good_token.
Proof.
  apply (proj1 (token_guard digits_only good_token (call_with (Ok spot_answer)))).
  reflexivity.
Defined.

(** X19.  The client cannot be built without both credentials: [__init__]
    raises when [APP_KEY] or [APP_SECRET] is unset or empty, and only then.
    With both, a stored token that is still valid is taken over as it is,
    without a token request. *)
Theorem init_needs_credentials app_key app_secret stored w :
  ((exists e, Clients.init app_key app_secret stored w = Raise e)
   <-> (app_key = None \/ app_key = Some "" \/ app_secret = None \/ app_secret = Some ""))
  /\ (forall key secret ts,
        app_key = Some key -> key <> "" -> app_secret = Some secret -> secret <> "" ->
        stored = Some ts -> is_token_valid ts (checked_at w) = true ->
        Clients.init app_key app_secret stored w = Ok ts).
Proof.
  split.
  - unfold Clients.init.
    destruct app_key as [k |]; [| split; [auto | intros _; cbn; eauto]].
    destruct (String.eqb_spec k "") as [-> | Hk];
      [split; [auto | intros _; cbn; eauto] |].
    destruct app_secret as [s |]; [| split; [auto | intros _; cbn; eauto]].
    destruct (String.eqb_spec s "") as [-> | Hs];
      [split; [auto | intros _; cbn; eauto] |].
    cbn [negb andb]. split.
    + intros [e He]. destruct (is_token_valid _ _); discriminate He.
    + intros [H | [H | [H | H]]]; congruence.
  - intros key secret ts -> Hk -> Hs -> Hv. unfold Clients.init.
    destruct (String.eqb_spec key ""); [contradiction |].
    destruct (String.eqb_spec secret ""); [contradiction |].
    cbn [negb andb default from_option id]. by rewrite Hv.
Qed.

Lemma init_needs_credentials_witness :
  Clients.init (Some "PSabc") (Some "s3cr3t") (Some good_token) (call_with (Ok spot_answer))
  = Ok good_token.
Proof.
  refine (proj2 (init_needs_credentials (Some "PSabc") (Some "s3cr3t") (Some good_token)
                   (call_with (Ok spot_answer)))
            "PSabc" "s3cr3t" good_token _ _ _ _ _ _);
    [reflexivity | discriminate | reflexivity | discriminate | reflexivity | reflexivity].
Defined.

(** *** From the answer of the broker to the metric *)

(** X20.  When the gold spot client of a cycle is [get_gd_gold_spot], the
    metric of the aggregate comes from the quote that this client returned:
    either the client's answer is dropped, the gold spot entry is [None]
    and the metric is the int 0, or the entry is the client's filled quote,
    its current price [p] is above zero and the metric is
    [round(p * k, 2)]. *)
Theorem broker_quote_to_metric env st cv ts w :
  outcome (fetched env (clock st) GoldSpot) = Ok (fst (get_gd_gold_spot cv ts w)) ->
  let collected := fst (collect_all_data env st) in
  (collected !! "gold_spot" = Some VNone
   /\ collected !! "nav" = Some (VDict {[ "nav_value" := VInt 0 ]}))
  \/ exists p bp bv ap av,
       collected !! "gold_spot" = Some (VDict (filled_quote (stamp w) p bp bv ap av))
       /\ SFltb fzero p = true
       /\ collected !! "nav"
          = Some (VDict {[ "nav_value" :=
                             VFloat (round2 (fmul p (nav_multiplier nav_calculator))) ]}).
Proof.
  intros Ho. cbv zeta.
  pose proof (collect_all_data_entry env st GoldSpot) as He.
  cbn [key_of keep] in He. rewrite Ho in He.
  destruct (get_gd_gold_spot_shapes cv ts w)
    as [Hr | [Hr | [Hr | (p & bp & bv & ap & av & Hr & Hp)]]];
    cbv zeta in Hr; rewrite Hr in He.
  - left. split; [exact He | by apply aggregate_nav_none].
  - left. split; [exact He | by apply aggregate_nav_none].
  - left. rewrite keep_current_price_zero_quote in He.
    split; [exact He | by apply aggregate_nav_none].
  - right. exists p, bp, bv, ap, av.
    rewrite keep_current_price_filled, Hp in He.
    split; [exact He |]. split; [exact Hp |].
    apply (aggregate_nav_float env st _ p He).
    unfold filled_quote. by rewrite lookup_insert_eq.
Qed.

Lemma broker_quote_to_metric_witness :
  (fst (collect_all_data broker_spot idle_state) !! "gold_spot" = Some VNone
   /\ fst (collect_all_data broker_spot idle_state) !! "nav"
      = Some (VDict {[ "nav_value" := VInt 0 ]}))
  \/ exists p bp bv ap av,
       fst (collect_all_data broker_spot idle_state) !! "gold_spot"
       = Some (VDict (filled_quote (stamp (call_with (Ok spot_answer))) p bp bv ap av))
       /\ SFltb fzero p = true
       /\ fst (collect_all_data broker_spot idle_state) !! "nav"
          = Some (VDict {[ "nav_value" :=
                             VFloat (round2 (fmul p (nav_multiplier nav_calculator))) ]}).
Proof.
  apply (broker_quote_to_metric broker_spot idle_state digits_only good_token
           (call_with (Ok spot_answer))).
  reflexivity.
Defined.
